(** * wpbot.js: the metrics dashboard widget

    A shallow embedding of [src/static/wpbot.js] and the properties of its
    poll / render / toggle loop.

    Conventions of the embedding.
    - A JavaScript string is the list of its UTF-16 code units ([jsstring]);
      the regular expression of [cssSafe] has no [u] flag and therefore works
      on code units.  [js] decodes a UTF-8 literal of this file into code
      units, so the templates below can be compared with the source text.
    - JSON numbers are the integers of the data model, as [Z]; [String(n)] is
      their decimal notation, which is what JavaScript prints for the
      integers that a Number holds exactly (below 2^53 in absolute value).
    - An optional field is an [option]; [None] is an absent ([undefined])
      field.  The operator [x || y] of the source is embedded by the
      truthiness of the field's type: the empty string and the number 0 are
      falsy.
    - The DOM is modelled as far as the handlers read and write it: the text
      assigned to [innerHTML], the [hidden] class, the [id] and [data-key]
      attributes.  The key of a profile is written without escaping into
      the attribute [data-key] and read back as the HTML parser reads it
      ([dataKeyAttribute]).  The element tree of a template is the one its
      text shows when the strings of the snapshot have none of the
      characters that the parser treats specially ([plainSnapshot]); the
      properties that depend on the tree say so. *)

From Stdlib Require Import ZArith NArith Bool String Ascii DecimalString.
From stdpp Require Import base decidable option numbers list.

Local Open Scope N_scope.

(** ** JavaScript strings *)

Definition jsstring : Type := list N.

(** Decoding of a UTF-8 literal (one, two and three byte sequences, which
    cover every character of the source file) into UTF-16 code units. *)
Fixpoint js (s : string) : jsstring :=
  match s with
  | EmptyString => []
  | String a r =>
      let b := N_of_ascii a in
      if b <? 128 then b :: js r
      else if b <? 224 then
        match r with
        | String c r' => ((b - 192) * 64 + (N_of_ascii c - 128)) :: js r'
        | EmptyString => [b]
        end
      else
        match r with
        | String c (String d r') =>
            ((b - 224) * 4096 + (N_of_ascii c - 128) * 64 + (N_of_ascii d - 128))
              :: js r'
        | _ => [b]
        end
  end.

(** The double quote, U+0022. *)
Definition dq : jsstring := [34].

(** A double-quoted attribute value, as in [class="hint"]. *)
Definition q (s : string) : jsstring := dq ++ js s ++ dq.

(** [String(n)] for an integer [n] that a Number holds exactly. *)
Definition String_of_Z (n : Z) : jsstring :=
  js (NilZero.string_of_int (Z.to_int n)).

(** [String(b)] for a boolean; [toLowerCase] leaves it as it is. *)
Definition String_of_bool (b : bool) : jsstring :=
  if b then js "true" else js "false".

(** WhiteSpace and LineTerminator code units, the ones [trim] strips. *)
Definition is_js_space (c : N) : bool :=
  (c =? 9) || (c =? 10) || (c =? 11) || (c =? 12) || (c =? 13) || (c =? 32)
  || (c =? 160) || (c =? 5760) || ((8192 <=? c) && (c <=? 8202))
  || (c =? 8232) || (c =? 8233) || (c =? 8239) || (c =? 8287)
  || (c =? 12288) || (c =? 65279).

Fixpoint trimStart (s : jsstring) : jsstring :=
  match s with
  | [] => []
  | c :: r => if is_js_space c then trimStart r else s
  end.

Definition trimEnd (s : jsstring) : jsstring := rev (trimStart (rev s)).

(** [s.trim()] *)
Definition trim (s : jsstring) : jsstring := trimEnd (trimStart s).

(** [s.includes(t)], used to state that a piece of markup does not occur. *)
Fixpoint startsWith (t s : jsstring) : bool :=
  match t, s with
  | [], _ => true
  | _ :: _, [] => false
  | a :: t', b :: s' => (a =? b) && startsWith t' s'
  end.

Fixpoint includes (s t : jsstring) : bool :=
  startsWith t s ||
  match s with
  | [] => false
  | _ :: s' => includes s' t
  end.

(** The position of the first occurrence of [needle] in [hay]. *)
Fixpoint indexOf (needle hay : jsstring) : option nat :=
  if startsWith needle hay then Some 0%nat
  else match hay with
       | [] => None
       | _ :: hay' => S <$> indexOf needle hay'
       end.

(** ** [cssSafe] (lines 7-9)

    [String(s).replace(/[^a-zA-Z0-9_-]/g, "_")]: every code unit outside the
    class is replaced by an underscore. *)

(** The character class [a-zA-Z0-9_-]. *)
Definition in_class (c : N) : bool :=
  ((97 <=? c) && (c <=? 122)) || ((65 <=? c) && (c <=? 90))
  || ((48 <=? c) && (c <=? 57)) || (c =? 95) || (c =? 45).

Definition cssSafe (s : jsstring) : jsstring :=
  map (fun c => if in_class c then c else 95) s.

(** ** The data model: one snapshot per poll *)

Module Window.
Record t := mk {
  title : option jsstring;
  url : option jsstring;
  wa_ready : bool;
  last_seen : option jsstring
}.
End Window.

Module Profile.
Record t := mk {
  key : jsstring;
  ready : bool;
  path : option jsstring;
  pid : option Z;
  last_seen : option jsstring;
  windows : option (list Window.t)
}.
End Profile.

Module Metrics.
Record t := mk {
  wa_ready : bool;
  prof_ready : Z;
  prof_total : Z;
  queued_jobs : Z;
  running_jobs : Z;
  pending_targets : Z;
  profiles : option (list Profile.t)
}.
End Metrics.

(** ** The operator [||] on optional fields *)

(** [x || d] for a string field: an absent and an empty string are falsy. *)
Definition or_str (x : option jsstring) (d : jsstring) : jsstring :=
  match x with
  | Some (c :: s) => c :: s
  | Some [] | None => d
  end.

(** [n || d] for a number field inside a template: 0 is falsy. *)
Definition or_num (n : option Z) (d : jsstring) : jsstring :=
  match n with
  | Some 0%Z | None => d
  | Some z => String_of_Z z
  end.

(** [l || []] for a sequence field. *)
Definition or_nil {A} (l : option (list A)) : list A := default [] l.

(** ** The renderer *)

(** [statusBadge] (lines 11-15) *)
Definition statusBadge (ok : bool) : jsstring :=
  let cls := if ok then js "ok" else js "warn" in
  let icon := if ok then js "✅" else js "⏳" in
  icon ++ js " <span class=" ++ dq ++ cls ++ dq ++ js ">"
    ++ String_of_bool ok ++ js "</span>".

(** [w.title || ('Window ' + (idx+1))] (line 27) *)
Definition windowLabel (w : Window.t) (idx : nat) : jsstring :=
  or_str (Window.title w) (js "Window " ++ String_of_Z (Z.of_nat idx + 1)).

(** The constant [title] of the callback (lines 24-28). *)
Definition windowTitleHTML (w : Window.t) (idx : nat) : jsstring :=
  js "
        <div class=" ++ q "acc-title" ++ js ">
          <span class=" ++ dq ++ js "dot "
    ++ (if Window.wa_ready w then js "ok" else js "warn") ++ dq ++ js "></span>
          <span>" ++ windowLabel w idx ++ js "</span>
        </div>".

(** The constant [meta] of the callback (line 29). *)
Definition windowMetaHTML (w : Window.t) : jsstring :=
  match Window.url w with
  | Some (c :: u) =>
      js "<div class=" ++ q "acc-meta" ++ js "><code>" ++ (c :: u) ++ js "</code></div>"
  | Some [] | None => js "<div class=" ++ q "acc-meta" ++ js "></div>"
  end.

(** What one call of the [forEach] callback appends (lines 30-41). *)
Definition windowItemHTML (idx : nat) (w : Window.t) : jsstring :=
  js "
        <div class=" ++ q "acc-item" ++ js ">
          <div class=" ++ q "acc-header" ++ js ">"
    ++ windowTitleHTML w idx ++ windowMetaHTML w ++ js "</div>
          <div class=" ++ q "acc-body" ++ js ">
            <div class=" ++ q "kv" ++ js ">
              <div>WA Ready</div><div>" ++ statusBadge (Window.wa_ready w) ++ js "</div>
              <div>Title</div><div>" ++ or_str (Window.title w) (js "-") ++ js "</div>
              <div>URL</div><div>" ++ or_str (Window.url w) (js "-") ++ js "</div>
              <div>Last Seen</div><div>" ++ or_str (Window.last_seen w) (js "-") ++ js "</div>
            </div>
          </div>
        </div>".

Definition noWindowsHint : jsstring :=
  js "<div class=" ++ q "hint" ++ js ">Bu profil için pencere/sekme verisi yok.</div>".

(** [renderWindowsHTML] (lines 18-45); the callback runs on the entries in
    order and appends to [html]. *)
Definition renderWindowsHTML (windows : option (list Window.t)) : jsstring :=
  match windows with
  | None | Some [] => noWindowsHint
  | Some ws =>
      js "<div class=" ++ q "accordion nested" ++ js ">"
        ++ concat (imap windowItemHTML ws)
        ++ js "</div>"
  end.

(** [buildProfileBodyHTML] (lines 47-58) *)
Definition buildProfileBodyHTML (p : Profile.t) : jsstring :=
  js "
      <div class=" ++ q "kv" ++ js ">
        <div>Ready</div><div>" ++ statusBadge (Profile.ready p) ++ js "</div>
        <div>Path</div><div>" ++ or_str (Profile.path p) (js "-") ++ js "</div>
        <div>PID</div><div>" ++ or_num (Profile.pid p) (js "-") ++ js "</div>
        <div>Last Seen</div><div>" ++ or_str (Profile.last_seen p) (js "-") ++ js "</div>
      </div>
      <div style=" ++ q "margin-top:8px;font-weight:600;" ++ js ">Windows / Tabs</div>
      " ++ renderWindowsHTML (Profile.windows p) ++ js "
    ".

(** What one call of the [forEach] callback appends (lines 65-76). *)
Definition profileItemHTML (p : Profile.t) : jsstring :=
  js "
        <div class=" ++ q "profile-item" ++ js ">
          <div class=" ++ q "profile-summary" ++ js " data-key=" ++ dq ++ Profile.key p ++ dq ++ js ">
            <div class=" ++ q "profile-left" ++ js ">
              <span class=" ++ dq ++ js "dot "
    ++ (if Profile.ready p then js "ok" else js "warn") ++ dq ++ js "></span>
              <span>" ++ Profile.key p ++ js "</span>
            </div>
            <div class=" ++ q "profile-right" ++ js ">"
    ++ (if Profile.ready p then js "ready" else js "not ready") ++ js "</div>
          </div>
          <div class=" ++ q "details-body hidden" ++ js " id="
    ++ dq ++ js "body-" ++ cssSafe (Profile.key p) ++ dq ++ js "></div>
        </div>
      ".

Definition noProfilesHint : jsstring :=
  js "<div class=" ++ q "hint" ++ js ">Hiç profil yok.</div>".

(** [buildProfilesPanelHTML] (lines 60-79) *)
Definition buildProfilesPanelHTML (data : Metrics.t) : jsstring :=
  let profiles := or_nil (Metrics.profiles data) in
  match profiles with
  | [] => noProfilesHint
  | _ :: _ => concat (map profileItemHTML profiles)
  end.

(** [renderSummaryMonoBox] (lines 100-125) *)
Definition renderSummaryMonoBox (data : Metrics.t) : jsstring :=
  let readyStr :=
    String_of_Z (Metrics.prof_ready data) ++ js "/"
      ++ String_of_Z (Metrics.prof_total data) ++ js " ready" in
  let kv := js "
      <div class=" ++ q "mono-kv" ++ js ">
        <div>WhatsApp Ready</div><div>"
    ++ (if Metrics.wa_ready data then js "✅ true" else js "⏳ false") ++ js "</div>
        <div>Profiles</div><div>" ++ readyStr ++ js "</div>
        <div>Queued Jobs</div><div>" ++ String_of_Z (Metrics.queued_jobs data) ++ js "</div>
        <div>Running Jobs</div><div>" ++ String_of_Z (Metrics.running_jobs data) ++ js "</div>
        <div>Pending Targets</div><div>" ++ String_of_Z (Metrics.pending_targets data) ++ js "</div>
      </div>
    " in
  js "
      <div class=" ++ q "mono-card" ++ js ">
        <div class=" ++ q "mono-header" ++ js ">
          <div class=" ++ q "mono-title" ++ js ">Aktif WP / Toplam Profil</div>
          <div class=" ++ q "mono-right" ++ js ">" ++ readyStr ++ js "</div>
        </div>
        <div class=" ++ q "mono-divider" ++ js "></div>
        " ++ kv ++ js "
        <div class=" ++ q "mono-footer" ++ js ">
          <button id=" ++ q "profilesToggle" ++ js " class=" ++ q "btn" ++ js ">Profilleri Göster ▾</button>
        </div>
        <div id=" ++ q "profiles-panel" ++ js " class=" ++ q "profiles-panel hidden" ++ js "></div>
      </div>
    ".

(** ** The toggle controller *)

(** A [.profile-item] element of the panel, as far as the click handler
    reads and writes it. *)
Record ProfileItem := {
  data_key : jsstring;       (* [data-key] of its [.profile-summary] row *)
  body_id : jsstring;        (* [id] of its [.details-body] *)
  body_innerHTML : jsstring; (* [innerHTML] of its [.details-body] *)
  body_hidden : bool         (* the body's class list contains [hidden] *)
}.

(** The input stream of the HTML parser: a carriage return, alone or
    before a line feed, is read as one line feed. *)
Fixpoint normalizeNewlines (s : jsstring) : jsstring :=
  match s with
  | [] => []
  | c :: r =>
      if c =? 13
      then 10 :: match r with
                 | c' :: r' => if c' =? 10 then normalizeNewlines r'
                               else normalizeNewlines r
                 | [] => []
                 end
      else c :: normalizeNewlines r
  end.

(** The characters of a double-quoted attribute value up to the quote
    that ends it; U+0000 is read as U+FFFD. *)
Fixpoint attributeValue (s : jsstring) : jsstring :=
  match s with
  | [] => []
  | c :: r =>
      if c =? 34 then []
      else (if c =? 0 then 65533 else c) :: attributeValue r
  end.

(** What [row.getAttribute('data-key')] (line 84) returns for a row whose
    markup was written with [key] (line 67).  Character references are not
    decoded here: the parser's table of named characters is not part of
    this development, and an ampersand is among the characters that
    [plainKey] excludes. *)
Definition dataKeyAttribute (key : jsstring) : jsstring :=
  attributeValue (normalizeNewlines key).

(** The element that the text of [profileItemHTML p] stands for.  The row
    carries the key as the parser reads it; the body carries the id, which
    has only characters of [A-Za-z0-9_-]; it starts without content and
    with the class [hidden] (line 74). *)
Definition profileItemDOM (p : Profile.t) : ProfileItem :=
  {| data_key := dataKeyAttribute (Profile.key p);
     body_id := js "body-" ++ cssSafe (Profile.key p);
     body_innerHTML := [];
     body_hidden := true |}.

(** The items of the panel after [panel.innerHTML =
    buildProfilesPanelHTML(data)] (line 139); the empty-state hint has no
    item.  These items are the whole tree when the snapshot is plain
    ([plainSnapshot]); what follows a double quote in a key, or a tag in a
    string, is read by the parser as further attributes and elements,
    which this list does not have. *)
Definition profilesPanelDOM (data : Metrics.t) : list ProfileItem :=
  profileItemDOM <$> or_nil (Metrics.profiles data).

(** The writes of the click handler; [b] is the position of the body. *)
Inductive Mutation :=
  | SetInnerHTML (b : nat) (html : jsstring)
  | ToggleHidden (b : nat).

Definition setInnerHTML (html : jsstring) (it : ProfileItem) : ProfileItem :=
  {| data_key := data_key it; body_id := body_id it;
     body_innerHTML := html; body_hidden := body_hidden it |}.

Definition toggleHidden (it : ProfileItem) : ProfileItem :=
  {| data_key := data_key it; body_id := body_id it;
     body_innerHTML := body_innerHTML it; body_hidden := negb (body_hidden it) |}.

Definition mutate (container : list ProfileItem) (m : Mutation) : list ProfileItem :=
  match m with
  | SetInnerHTML b html => alter (setInnerHTML html) b container
  | ToggleHidden b => alter toggleHidden b container
  end.

(** [container.querySelector(`#body-${cssSafe(key)}`)] (line 85): the first
    body, in document order, that carries the id. *)
Definition querySelectorBody (container : list ProfileItem) (key : jsstring)
  : option (nat * ProfileItem) :=
  list_find (λ it, body_id it = js "body-" ++ cssSafe key) container.

(** [(data.profiles || []).find(p => p.key === key)] (line 87) *)
Definition findProfile (data : Metrics.t) (key : jsstring) : option Profile.t :=
  snd <$> list_find (λ p, Profile.key p = key) (or_nil (Metrics.profiles data)).

(** The listener of a row whose [data-key] is [key] (lines 83-95), as the
    list of its writes. *)
Definition onRowClick (data : Metrics.t) (container : list ProfileItem)
    (key : jsstring) : list Mutation :=
  match querySelectorBody container key with
  | None => []
  | Some (b, body) =>
      match findProfile data key with
      | None => []
      | Some prof =>
          let needBuild := bool_decide (trim (body_innerHTML body) = []) in
          (if needBuild then [SetInnerHTML b (buildProfileBodyHTML prof)] else [])
            ++ [ToggleHidden b]
      end
  end.

(** The writes caused by a click on the [r]-th row of the panel. *)
Definition rowClickMutations (data : Metrics.t) (container : list ProfileItem)
    (r : nat) : list Mutation :=
  match container !! r with
  | None => []
  | Some row => onRowClick data container (data_key row)
  end.

(** The panel after a click on its [r]-th row. *)
Definition clickRow (data : Metrics.t) (container : list ProfileItem)
    (r : nat) : list ProfileItem :=
  foldl mutate container (rowClickMutations data container r).

(** A sequence of row clicks: the writes it causes, in order, and the panel
    it leaves. *)
Fixpoint clickRows (data : Metrics.t) (container : list ProfileItem)
    (clicks : list nat) : list Mutation * list ProfileItem :=
  match clicks with
  | [] => ([], container)
  | r :: rest =>
      let ms := rowClickMutations data container r in
      let '(ms', c') := clickRows data (foldl mutate container ms) rest in
      (ms ++ ms', c')
  end.

(** The panel of [data] after the row clicks [clicks], from its build on. *)
Definition panelAfter (data : Metrics.t) (clicks : list nat) : list ProfileItem :=
  snd (clickRows data (profilesPanelDOM data) clicks).

(** The writes of those clicks. *)
Definition writesOf (data : Metrics.t) (clicks : list nat) : list Mutation :=
  fst (clickRows data (profilesPanelDOM data) clicks).

(** How often the content of body [b] is assigned in a list of writes. *)
Definition isBuildOf (b : nat) (m : Mutation) : bool :=
  match m with
  | SetInnerHTML b' _ => bool_decide (b' = b)
  | ToggleHidden _ => false
  end.

Definition builds (b : nat) (ms : list Mutation) : nat :=
  length (filter (λ m, isBuildOf b m = true) ms).

(** ** [renderAll] (lines 127-149) *)

(** The wrapper that [renderAll] mounts: the closure variables of the
    toggle button's listener and the part of the element tree they govern. *)
Record Dashboard := {
  dash_data : Metrics.t;          (* [data], captured by both listeners *)
  wrapper_innerHTML : jsstring;   (* as assigned on line 129 *)
  panel_hidden : bool;            (* [#profiles-panel] has the class [hidden] *)
  panelBuilt : bool;              (* line 135 *)
  panel_innerHTML : jsstring;     (* as assigned on line 139 *)
  panel_items : list ProfileItem; (* the rows with a listener and their bodies *)
  btn_textContent : jsstring
}.

Definition renderAll (data : Metrics.t) : Dashboard :=
  {| dash_data := data;
     wrapper_innerHTML := renderSummaryMonoBox data;
     panel_hidden := true;
     panelBuilt := false;
     panel_innerHTML := [];
     panel_items := [];
     btn_textContent := js "Profilleri Göster ▾" |}.

(** The listener of [#profilesToggle] (lines 136-145). *)
Definition onToggleClick (d : Dashboard) : Dashboard :=
  let hidden := panel_hidden d in
  let build := hidden && negb (panelBuilt d) in
  let hidden' := negb hidden in
  {| dash_data := dash_data d;
     wrapper_innerHTML := wrapper_innerHTML d;
     panel_hidden := hidden';
     panelBuilt := if build then true else panelBuilt d;
     panel_innerHTML :=
       if build then buildProfilesPanelHTML (dash_data d) else panel_innerHTML d;
     panel_items :=
       if build then profilesPanelDOM (dash_data d) else panel_items d;
     btn_textContent :=
       if hidden' then js "Profilleri Göster ▾" else js "Profilleri Gizle ▴" |}.

(** A click on the [r]-th profile row of the mounted panel. *)
Definition onProfileRowClick (r : nat) (d : Dashboard) : Dashboard :=
  {| dash_data := dash_data d;
     wrapper_innerHTML := wrapper_innerHTML d;
     panel_hidden := panel_hidden d;
     panelBuilt := panelBuilt d;
     panel_innerHTML := panel_innerHTML d;
     panel_items := clickRow (dash_data d) (panel_items d) r;
     btn_textContent := btn_textContent d |}.

Inductive UserEvent :=
  | ClickToggle
  | ClickRow (r : nat).

Definition handle (d : Dashboard) (ev : UserEvent) : Dashboard :=
  match ev with
  | ClickToggle => onToggleClick d
  | ClickRow r => onProfileRowClick r d
  end.

(** ** The poller *)

(** An exception value: an [Error] object with its [name] and [message]. *)
Record JsError := {
  name : jsstring;
  message : jsstring
}.

(** [Error.prototype.toString], which [String(e)] calls. *)
Definition Error_toString (e : JsError) : jsstring :=
  match name e, message e with
  | [], msg => msg
  | nm, [] => nm
  | nm, msg => nm ++ js ": " ++ msg
  end.

(** [String(e.message || e)] (line 158) *)
Definition reasonOf (e : JsError) : jsstring :=
  match message e with
  | c :: msg => c :: msg
  | [] => Error_toString e
  end.

(** What the [fetch] promise resolves to: the status line of the response
    and what [res.json()] settles to, a rejection on a body that is not
    JSON. *)
Record Response := {
  status : Z;
  json : JsError + Metrics.t
}.

(** [res.ok]: the status is in the range 200-299. *)
Definition ok (res : Response) : bool :=
  ((200 <=? status res) && (status res <=? 299))%Z.

(** How the [fetch] promise settles. *)
Inductive FetchResult :=
  | Rejected (e : JsError)
  | Resolved (res : Response).

(** How the [try] block ends: by a throw, caught on line 157, or with the
    call of [renderAll] on line 156. *)
Inductive Completion :=
  | Throw (e : JsError)
  | Render (data : Metrics.t).

(** The [try] block (lines 153-156). *)
Definition tryBlock (r : FetchResult) : Completion :=
  match r with
  | Rejected e => Throw e
  | Resolved res =>
      if negb (ok res)
      then Throw {| name := js "Error"; message := js "HTTP " ++ String_of_Z (status res) |}
      else match json res with
           | inl e => Throw e
           | inr data => Render data
           end
  end.

(** The content of [#live-metrics]: markup assigned to its [innerHTML], or
    the wrapper appended by [renderAll]. *)
Inductive LiveContent :=
  | Markup (html : jsstring)
  | Mounted (wrapper : Dashboard).

(** The markup assigned in the [catch] clause (line 158). *)
Definition errorHint (e : JsError) : jsstring :=
  js "<div class=" ++ q "hint" ++ js ">Metrikler alınamadı: " ++ reasonOf e
    ++ js "</div>".

(** [fetchAndRender] (lines 151-160), given how the request settles and the
    content of the live region before. *)
Definition fetchAndRender (r : FetchResult) (live : LiveContent) : LiveContent :=
  match tryBlock r with
  | Render data => Mounted (renderAll data)
  | Throw e => Markup (errorHint e)
  end.

(** ** Configuration and the polling loop *)

Module WPBOT.
Record t := mk {
  METRICS_URL : option jsstring
}.
End WPBOT.

(** [(window.WPBOT && window.WPBOT.METRICS_URL) || "/metrics"] (line 2);
    the argument is [window.WPBOT], [None] when it is not defined. *)
Definition METRICS_URL (window_WPBOT : option WPBOT.t) : jsstring :=
  or_str (window_WPBOT ≫= WPBOT.METRICS_URL) (js "/metrics").

(** The state of the module between two timer ticks. *)
Record Poller := {
  url : jsstring;                (* the constant [METRICS_URL] *)
  live : LiveContent;            (* the content of [liveEl] *)
  requested : list jsstring      (* the URLs passed to [fetch] so far *)
}.

(** The world at one poll: the global configuration object at that time
    and how a request to a URL settles. *)
Record Tick := {
  tick_WPBOT : option WPBOT.t;
  network : jsstring → FetchResult
}.

(** Evaluation of the module body up to the first poll (lines 2-5). *)
Definition startup (window_WPBOT : option WPBOT.t) (live0 : LiveContent) : Poller :=
  {| url := METRICS_URL window_WPBOT; live := live0; requested := [] |}.

(** One poll cycle whose response arrives before anything else happens:
    [fetch(METRICS_URL, ...)] and what follows it.  Polls whose responses
    are still awaited when other things happen are in [LoopEvent] below. *)
Definition poll (m : Poller) (t : Tick) : Poller :=
  {| url := url m;
     live := fetchAndRender (network t (url m)) (live m);
     requested := requested m ++ [url m] |}.

(** The first call and the calls of the timer (lines 162-163). *)
Definition run (window_WPBOT : option WPBOT.t) (live0 : LiveContent)
    (ticks : list Tick) : Poller :=
  foldl poll (startup window_WPBOT live0) ticks.

(** ** The event loop: overlapping polls and clicks *)

(** The module while it runs.  [fetchAndRender] awaits the response and
    then its body, and the timer does not wait for it: several calls can be
    waiting at once, and each writes to the live region when its own
    response has arrived. *)
Record Loop := {
  loop_url : jsstring;             (* the constant [METRICS_URL] *)
  loop_live : LiveContent;         (* the content of [liveEl] *)
  loop_requested : list jsstring;  (* the URLs passed to [fetch] so far *)
  loop_waiting : list nat          (* the calls, by number, that still wait *)
}.

Inductive LoopEvent :=
  | Fire                                (* line 162, or a tick of the timer *)
  | Settle (i : nat) (r : FetchResult)  (* call [i] gets its response *)
  | Click (ev : UserEvent).             (* a listener of the wrapper runs *)

Definition loopStart (window_WPBOT : option WPBOT.t) (live0 : LiveContent) : Loop :=
  {| loop_url := METRICS_URL window_WPBOT; loop_live := live0;
     loop_requested := []; loop_waiting := [] |}.

(** A click: the listeners of lines 83 and 136 are on elements of the
    mounted wrapper; the markup of the error hint has no element with a
    listener. *)
Definition clickOn (live : LiveContent) (ev : UserEvent) : LiveContent :=
  match live with
  | Mounted wrapper => Mounted (handle wrapper ev)
  | Markup html => Markup html
  end.

Definition loopStep (m : Loop) (e : LoopEvent) : Loop :=
  match e with
  | Fire =>
      {| loop_url := loop_url m; loop_live := loop_live m;
         loop_requested := loop_requested m ++ [loop_url m];
         loop_waiting := loop_waiting m ++ [length (loop_requested m)] |}
  | Settle i r =>
      if bool_decide (i ∈ loop_waiting m)
      then {| loop_url := loop_url m;
              loop_live := fetchAndRender r (loop_live m);
              loop_requested := loop_requested m;
              loop_waiting := filter (λ j, j ≠ i) (loop_waiting m) |}
      else m
  | Click ev =>
      {| loop_url := loop_url m; loop_live := clickOn (loop_live m) ev;
         loop_requested := loop_requested m; loop_waiting := loop_waiting m |}
  end.

(** ** Notions used to state the properties *)

(** A code unit that a double-quoted attribute value and a text keep as it
    is: not U+0000, a carriage return, the double quote, the ampersand or
    the less-than sign. *)
Definition plainKeyUnit (c : N) : bool :=
  negb ((c =? 0) || (c =? 13) || (c =? 34) || (c =? 38) || (c =? 60)).

(** A key that is read back from [data-key] as it is and adds nothing to
    the element tree. *)
Definition plainKey (key : jsstring) : bool := forallb plainKeyUnit key.

(** A text that starts no tag. *)
Definition plainText (s : jsstring) : bool := forallb (λ c, negb (c =? 60)) s.

Definition plainField (x : option jsstring) : bool :=
  match x with
  | Some s => plainText s
  | None => true
  end.

Definition plainWindow (w : Window.t) : bool :=
  plainField (Window.title w) && plainField (Window.url w)
  && plainField (Window.last_seen w).

Definition plainProfile (p : Profile.t) : bool :=
  plainKey (Profile.key p) && plainField (Profile.path p)
  && plainField (Profile.last_seen p)
  && forallb plainWindow (or_nil (Profile.windows p)).

(** A snapshot whose markup has the element tree that the templates show:
    every key is plain, and no other string starts a tag (a tag in the
    detail markup of one profile could carry the id of the body of
    another). *)
Definition plainSnapshot (data : Metrics.t) : bool :=
  forallb plainProfile (or_nil (Metrics.profiles data)).

(** A string field that [||] takes for absent, and a number field. *)
Definition falsyStr (x : option jsstring) : Prop := x = Some [] ∨ x = None.

Definition falsyNum (n : option Z) : Prop := n = Some 0%Z ∨ n = None.

(** A present but empty string replaced by an absent field. *)
Definition absentIfEmpty (x : option jsstring) : option jsstring :=
  match x with
  | Some [] => None
  | _ => x
  end.

(** A present number 0 replaced by an absent field. *)
Definition absentIfZero (n : option Z) : option Z :=
  match n with
  | Some 0%Z => None
  | _ => n
  end.

(** A window, and a profile, with every present but falsy optional field
    made absent. *)
Definition Window_withoutFalsy (w : Window.t) : Window.t :=
  Window.mk (absentIfEmpty (Window.title w)) (absentIfEmpty (Window.url w))
    (Window.wa_ready w) (absentIfEmpty (Window.last_seen w)).

Definition Profile_withoutFalsy (p : Profile.t) : Profile.t :=
  Profile.mk (Profile.key p) (Profile.ready p) (absentIfEmpty (Profile.path p))
    (absentIfZero (Profile.pid p)) (absentIfEmpty (Profile.last_seen p))
    (fmap (M := list) Window_withoutFalsy <$> Profile.windows p).

(** The body that a write is made to. *)
Definition target (m : Mutation) : nat :=
  match m with
  | SetInnerHTML b _ | ToggleHidden b => b
  end.

(** The id that line 74 gives to the body of a profile. *)
Definition profileBodyId (p : Profile.t) : jsstring :=
  js "body-" ++ cssSafe (Profile.key p).

(** The frame of a panel of [data]: the keys of its rows, as the parser
    reads them, and the ids of its bodies, in order, are those of the
    profiles of [data]. *)
Definition framed (data : Metrics.t) (c : list ProfileItem) : Prop :=
  data_key <$> c
    = (λ p, dataKeyAttribute (Profile.key p)) <$> or_nil (Metrics.profiles data)
  ∧ body_id <$> c = profileBodyId <$> or_nil (Metrics.profiles data).

(** Every body with content is the first body of the panel with its id. *)
Definition builtFirst (c : list ProfileItem) : Prop :=
  ∀ j it, c !! j = Some it → trim (body_innerHTML it) ≠ [] →
  ∀ k y, c !! k = Some y → (k < j)%nat → body_id y ≠ body_id it.

(** How often row [i] is clicked. *)
Definition clicksOn (i : nat) (clicks : list nat) : nat :=
  length (filter (λ r, r = i) clicks).

(** The rows clicked in a list of events. *)
Definition rowClicks (evs : list UserEvent) : list nat :=
  omap (λ ev, match ev with ClickRow r => Some r | ClickToggle => None end) evs.

(** The row clicks that follow the first click on the toggle button, which
    is the click that builds the panel. *)
Fixpoint rowClicksSinceBuild (evs : list UserEvent) : option (list nat) :=
  match evs with
  | [] => None
  | ClickToggle :: rest => Some (rowClicks rest)
  | ClickRow _ :: rest => rowClicksSinceBuild rest
  end.

(** A code unit that [cssSafe] turns into an underscore or leaves as one. *)
Definition masked (c : N) : Prop := in_class c = false ∨ c = 95.

(** Two code units that [cssSafe] does not tell apart. *)
Definition collide (a b : N) : Prop := a = b ∨ (masked a ∧ masked b).

(** The calls of [fetchAndRender] in a list of events. *)
Fixpoint fires (history : list LoopEvent) : nat :=
  match history with
  | [] => 0
  | Fire :: rest => S (fires rest)
  | _ :: rest => fires rest
  end.

(** The clicks on the toggle button in a list of events. *)
Fixpoint toggleClicks (evs : list UserEvent) : nat :=
  match evs with
  | [] => 0
  | ClickToggle :: rest => S (toggleClicks rest)
  | ClickRow _ :: rest => toggleClicks rest
  end.


(** ** Sample data *)

(** Two profiles whose keys differ and are sanitized to the same id. *)
Definition pA : Profile.t := Profile.mk (js "a b") true None None None None.
Definition pB : Profile.t := Profile.mk (js "a_b") false None (Some 0%Z) None (Some []).
Definition dAB : Metrics.t := Metrics.mk true 1 2 0 0 0 (Some [pA; pB]).

(** A response with the status 201 whose body is the sample snapshot. *)
Definition created201 : Response := {| status := 201; json := inr dAB |}.

(** A tick at which the request is rejected and the configuration object
    has been replaced by another one. *)
Definition offlineTick : Tick :=
  {| tick_WPBOT := Some (WPBOT.mk (Some (js "/other")));
     network := λ _, Rejected {| name := js "TypeError"; message := js "Failed to fetch" |} |}.

(** A panel whose only row names a profile that the snapshot does not
    have, and a panel whose only row has lost its body. *)
Definition strayRow : ProfileItem :=
  {| data_key := js "ghost"; body_id := js "body-ghost";
     body_innerHTML := []; body_hidden := true |}.

Definition orphanRow : ProfileItem :=
  {| data_key := js "a_b"; body_id := js "elsewhere";
     body_innerHTML := []; body_hidden := true |}.

(** A snapshot of two profiles whose sanitized keys differ. *)
Definition pC : Profile.t :=
  Profile.mk (js "wa-02") false (Some (js "/srv/wa-02")) (Some 4242%Z) None None.
Definition dAC : Metrics.t := Metrics.mk true 1 2 0 0 0 (Some [pA; pC]).

(** A row whose body holds white space only. *)
Definition blankRow : ProfileItem :=
  {| data_key := js "a_b"; body_id := js "body-a_b";
     body_innerHTML := [10; 32; 32; 9]; body_hidden := true |}.

(** A snapshot whose only profile has a double quote in its key, and one
    with a carriage return in the key of its first profile. *)
Definition pQ : Profile.t :=
  Profile.mk (js "a" ++ dq ++ js "b") true None None None None.
Definition dQ : Metrics.t := Metrics.mk true 1 1 0 0 0 (Some [pQ]).

Definition pR : Profile.t := Profile.mk [97; 13; 98] true None None None None.
Definition dR : Metrics.t := Metrics.mk true 1 2 0 0 0 (Some [pR; pB]).

(** * Properties *)

(** ** Strings *)

Example cssSafe_ascii : cssSafe (js "Profile 1/a-b_c") = js "Profile_1_a-b_c".
Proof. reflexivity. Qed.

Example cssSafe_non_ascii : cssSafe (js "ışık✅") = js "___k_".
Proof. reflexivity. Qed.

Lemma in_class_underscore : in_class 95 = true.
Proof. reflexivity. Qed.

Lemma cssSafe_in_class (s : jsstring) :
  Forall (λ c, in_class c = true) (cssSafe s).
Proof.
  induction s as [|c s IH]; simpl; constructor; auto.
  destruct (in_class c) eqn:Hc; [exact Hc | exact in_class_underscore].
Qed.

Lemma cssSafe_fixed (s : jsstring) :
  Forall (λ c, in_class c = true) s → cssSafe s = s.
Proof.
  induction 1 as [|c s Hc _ IH]; simpl; [reflexivity|].
  rewrite Hc. f_equal. exact IH.
Qed.

Lemma trimStart_nil (s : jsstring) :
  trimStart s = [] ↔ Forall (λ c, is_js_space c = true) s.
Proof.
  induction s as [|c s IH]; simpl.
  - split; auto.
  - destruct (is_js_space c) eqn:Hc.
    + rewrite IH. split; [by constructor | by inversion 1].
    + split; [discriminate | inversion 1; congruence].
Qed.

Lemma trimStart_spaces (s : jsstring) :
  Forall (λ c, is_js_space c = true) (trimStart s) →
  Forall (λ c, is_js_space c = true) s.
Proof.
  induction s as [|c s IH]; simpl; [done|].
  destruct (is_js_space c) eqn:Hc; [|done].
  intros H. constructor; auto.
Qed.

(** [trim] leaves nothing exactly of the strings made of white space. *)
Lemma trim_nil (s : jsstring) :
  trim s = [] ↔ Forall (λ c, is_js_space c = true) s.
Proof.
  unfold trim, trimEnd. split.
  - intros H. apply (f_equal (@rev N)) in H. rewrite rev_involutive in H.
    simpl in H. apply trimStart_nil in H.
    apply Forall_rev in H. rewrite rev_involutive in H.
    by apply trimStart_spaces.
  - intros H. apply trimStart_nil in H. rewrite H. reflexivity.
Qed.

Lemma trim_not_nil (s : jsstring) (c : N) :
  c ∈ s → is_js_space c = false → trim s ≠ [].
Proof.
  intros Hin Hc Ht. apply trim_nil in Ht.
  rewrite Forall_forall in Ht. specialize (Ht c Hin). congruence.
Qed.

(** *** Occurrences of markup *)

Lemma startsWith_nil (s : jsstring) : startsWith [] s = true.
Proof. by destruct s. Qed.

Lemma startsWith_app_same (x t s : jsstring) :
  startsWith (x ++ t) (x ++ s) = startsWith t s.
Proof.
  induction x as [|a x IH]; [done|]. simpl. by rewrite N.eqb_refl, IH.
Qed.

Lemma includes_here (s t : jsstring) : startsWith t s = true → includes s t = true.
Proof. intros H. destruct s; simpl; by rewrite H. Qed.

Lemma includes_cons (a : N) (s t : jsstring) :
  includes s t = true → includes (a :: s) t = true.
Proof. intros H. simpl. rewrite H. apply orb_true_r. Qed.

Lemma includes_app (x s t : jsstring) :
  includes s t = true → includes (x ++ s) t = true.
Proof. intros H. induction x as [|a x IH]; [done|]. by apply includes_cons. Qed.

Lemma startsWith_app_r (t k r : jsstring) :
  startsWith t k = true → startsWith t (k ++ r) = true.
Proof.
  revert k. induction t as [|a t IH]; intros [|b k]; simpl; try done.
  intros [-> H]%andb_true_iff. simpl. by apply IH.
Qed.

Lemma includes_drop_app (n : nat) (k k' r t : jsstring) :
  drop n k = k' → startsWith t (k' ++ r) = true → includes (k ++ r) t = true.
Proof.
  intros <- H. rewrite <- (take_drop n k), <- app_assoc.
  by apply includes_app, includes_here.
Qed.

Lemma includes_app_r (s r t : jsstring) :
  includes s t = true → includes (s ++ r) t = true.
Proof.
  induction s as [|a s IH]; simpl.
  - rewrite orb_false_r. intros H. apply includes_here.
    destruct t; [apply startsWith_nil | done].
  - intros [H|H]%orb_true_iff.
    + apply orb_true_iff. left. by apply (startsWith_app_r t (a :: s) r).
    + apply orb_true_iff. right. by apply IH.
Qed.

Lemma includes_middle (pre s post t : jsstring) :
  includes s t = true → includes (pre ++ s ++ post) t = true.
Proof. intros H. by apply includes_app, includes_app_r. Qed.

(** The goal [startsWith t s = true] when [t] and [s] are appended from the
    same pieces, up to the last piece of [t]. *)
Ltac pieces_match :=
  lazymatch goal with
  | |- startsWith (?x ++ _) (?x ++ _) = true =>
      refine (eq_trans (startsWith_app_same x _ _) _); pieces_match
  | |- startsWith ?t (?k ++ _) = true =>
      apply (startsWith_app_r t k); vm_compute; reflexivity
  | |- startsWith _ _ = true => vm_compute; reflexivity
  end.

(** The goal [includes s t = true] when [t] begins at the end of a piece of
    [s] and goes on with the pieces that follow it. *)
Ltac find_markup :=
  lazymatch goal with
  | |- includes (?k ++ ?r) (?t0 ++ ?t) = true =>
      first
        [ let found := eval vm_compute in (indexOf t0 k) in
          lazymatch found with
          | Some ?n =>
              apply (includes_drop_app n k t0);
              [ vm_compute; reflexivity | solve [pieces_match] ]
          end
        | apply includes_app; find_markup ]
  end.

(** C3: [cssSafe] is a total function whose result has only characters of
    [A-Za-z0-9_-]; applying it twice is the same as applying it once; and a
    string of such characters only is mapped to itself. *)
Theorem cssSafe_total_idempotent (s : jsstring) :
  Forall (λ c, in_class c = true) (cssSafe s)
  ∧ cssSafe (cssSafe s) = cssSafe s
  ∧ (Forall (λ c, in_class c = true) s → cssSafe s = s).
Proof.
  split; [apply cssSafe_in_class|].
  split; [apply cssSafe_fixed, cssSafe_in_class | apply cssSafe_fixed].
Qed.

Lemma cssSafe_total_idempotent_witness :
  Forall (λ c, in_class c = true) (cssSafe (js "wa-01_x"))
  ∧ cssSafe (cssSafe (js "wa-01_x")) = cssSafe (js "wa-01_x")
  ∧ cssSafe (js "wa-01_x") = js "wa-01_x".
Proof.
  destruct (cssSafe_total_idempotent (js "wa-01_x")) as (H1 & H2 & H3).
  split; [exact H1|]. split; [exact H2|].
  apply H3. vm_compute. repeat constructor.
Defined.

(** ** The renderer *)

(** C6: for a snapshot whose [profiles] sequence is empty (or absent, which
    line 61 turns into the empty sequence) the panel builder returns the
    empty-state hint, which has no profile or accordion markup, and the
    panel has no profile item. *)
Theorem empty_profiles_render_hint (data : Metrics.t) :
  or_nil (Metrics.profiles data) = [] →
  buildProfilesPanelHTML data
    = js "<div class=" ++ q "hint" ++ js ">Hiç profil yok.</div>"
  ∧ includes (buildProfilesPanelHTML data) (js "profile-item") = false
  ∧ includes (buildProfilesPanelHTML data) (js "profile-summary") = false
  ∧ includes (buildProfilesPanelHTML data) (js "details-body") = false
  ∧ includes (buildProfilesPanelHTML data) (js "accordion") = false
  ∧ profilesPanelDOM data = [].
Proof.
  intros H. unfold buildProfilesPanelHTML, profilesPanelDOM. rewrite H.
  repeat split; reflexivity.
Qed.

Lemma empty_profiles_render_hint_witness :
  buildProfilesPanelHTML (Metrics.mk false 0 0 0 0 0 (Some []))
    = js "<div class=" ++ q "hint" ++ js ">Hiç profil yok.</div>"
  ∧ profilesPanelDOM (Metrics.mk false 0 0 0 0 0 (Some [])) = [].
Proof.
  destruct (empty_profiles_render_hint (Metrics.mk false 0 0 0 0 0 (Some [])))
    as (H1 & _ & _ & _ & _ & H2); [reflexivity|].
  split; [exact H1 | exact H2].
Defined.

Lemma renderWindowsHTML_cons (w : Window.t) (ws : list Window.t) :
  renderWindowsHTML (Some (w :: ws))
  = js "<div class=" ++ q "accordion nested" ++ js ">"
      ++ concat (imap windowItemHTML (w :: ws)) ++ js "</div>".
Proof. reflexivity. Qed.

(** The rendering of a list is the rendering of its entries, each at its
    position. *)
Lemma renderWindowsHTML_entry (ws : list Window.t) (idx : nat) (w : Window.t) :
  ws !! idx = Some w →
  renderWindowsHTML (Some ws)
  = js "<div class=" ++ q "accordion nested" ++ js ">"
      ++ concat (imap windowItemHTML (take idx ws))
      ++ windowItemHTML idx w
      ++ concat (imap (λ i, windowItemHTML (S idx + i)) (drop (S idx) ws))
      ++ js "</div>".
Proof.
  intros Hw.
  assert (Hall : renderWindowsHTML (Some ws)
                 = js "<div class=" ++ q "accordion nested" ++ js ">"
                     ++ concat (imap windowItemHTML ws) ++ js "</div>").
  { destruct ws as [|w0 ws]; [by rewrite lookup_nil in Hw|].
    apply renderWindowsHTML_cons. }
  rewrite Hall. do 2 f_equal.
  rewrite <- (take_drop_middle ws idx w Hw) at 1.
  rewrite imap_app, concat_app, imap_cons.
  assert (Hlen : length (take idx ws) = idx).
  { rewrite length_take. apply lookup_lt_Some in Hw. lia. }
  rewrite Hlen, Nat.add_0_r. cbn [concat]. rewrite <- !app_assoc.
  assert (Himap : imap ((λ n, windowItemHTML (idx + n)) ∘ S) (drop (S idx) ws)
                  = imap (λ i, windowItemHTML (S idx + i)) (drop (S idx) ws)).
  { apply imap_ext. intros i x _. simpl. f_equal. lia. }
  by rewrite Himap.
Qed.

(** The header of an entry whose label is the fallback. *)
Lemma windowItemHTML_fallback_label (idx : nat) (w : Window.t) :
  falsyStr (Window.title w) →
  includes (windowItemHTML idx w)
    (js "<div class=" ++ q "acc-header" ++ js ">" ++ js "
        <div class=" ++ q "acc-title" ++ js ">
          <span class=" ++ dq ++ js "dot "
       ++ (if Window.wa_ready w then js "ok" else js "warn") ++ dq ++ js "></span>
          <span>" ++ js "Window " ++ String_of_Z (Z.of_nat idx + 1) ++ js "</span>
        </div>") = true.
Proof.
  intros Ht.
  assert (Hl : windowLabel w idx = js "Window " ++ String_of_Z (Z.of_nat idx + 1)).
  { unfold windowLabel. by destruct Ht as [-> | ->]. }
  unfold windowItemHTML, windowTitleHTML. rewrite Hl.
  generalize (String_of_Z (Z.of_nat idx + 1)) as position.
  generalize (windowMetaHTML w) as meta.
  generalize (statusBadge (Window.wa_ready w)) as badge.
  generalize (or_str (Window.title w) (js "-")) as title.
  generalize (or_str (Window.url w) (js "-")) as url.
  generalize (or_str (Window.last_seen w) (js "-")) as seen.
  intros seen url title badge meta position.
  rewrite <- !app_assoc.
  destruct (Window.wa_ready w); find_markup.
Qed.

(** C7: the entry at the 1-based position [idx + 1] of a window list, when
    its title is absent, is rendered with the label "Window (idx+1)": the
    rendering of the list has the rendering of that entry at its place,
    and the header of that entry has the title block with the label in its
    second [span]. *)
Theorem untitled_window_label (ws : list Window.t) (idx : nat) (w : Window.t) :
  ws !! idx = Some w →
  Window.title w = None →
  renderWindowsHTML (Some ws)
    = js "<div class=" ++ q "accordion nested" ++ js ">"
        ++ concat (imap windowItemHTML ws) ++ js "</div>"
  ∧ imap windowItemHTML ws !! idx = Some (windowItemHTML idx w)
  ∧ windowLabel w idx = js "Window " ++ String_of_Z (Z.of_nat idx + 1)
  ∧ windowTitleHTML w idx
    = js "
        <div class=" ++ q "acc-title" ++ js ">
          <span class=" ++ dq ++ js "dot "
        ++ (if Window.wa_ready w then js "ok" else js "warn") ++ dq ++ js "></span>
          <span>" ++ js "Window " ++ String_of_Z (Z.of_nat idx + 1) ++ js "</span>
        </div>"
  ∧ renderWindowsHTML (Some ws)
    = js "<div class=" ++ q "accordion nested" ++ js ">"
        ++ concat (imap windowItemHTML (take idx ws))
        ++ windowItemHTML idx w
        ++ concat (imap (λ i, windowItemHTML (S idx + i)) (drop (S idx) ws))
        ++ js "</div>"
  ∧ includes (windowItemHTML idx w)
      (js "<div class=" ++ q "acc-header" ++ js ">" ++ js "
        <div class=" ++ q "acc-title" ++ js ">
          <span class=" ++ dq ++ js "dot "
         ++ (if Window.wa_ready w then js "ok" else js "warn") ++ dq ++ js "></span>
          <span>" ++ js "Window " ++ String_of_Z (Z.of_nat idx + 1) ++ js "</span>
        </div>") = true
  ∧ includes (renderWindowsHTML (Some ws))
      (js "<div class=" ++ q "acc-header" ++ js ">" ++ js "
        <div class=" ++ q "acc-title" ++ js ">
          <span class=" ++ dq ++ js "dot "
         ++ (if Window.wa_ready w then js "ok" else js "warn") ++ dq ++ js "></span>
          <span>" ++ js "Window " ++ String_of_Z (Z.of_nat idx + 1) ++ js "</span>
        </div>") = true.
Proof.
  intros Hw Ht. split.
  { destruct ws as [|w0 ws]; [by rewrite lookup_nil in Hw|].
    apply renderWindowsHTML_cons. }
  split.
  { rewrite list_lookup_imap, Hw. reflexivity. }
  assert (Hl : windowLabel w idx = js "Window " ++ String_of_Z (Z.of_nat idx + 1)).
  { unfold windowLabel. rewrite Ht. reflexivity. }
  split; [exact Hl|].
  split; [unfold windowTitleHTML; rewrite Hl; by rewrite <- !app_assoc|].
  pose proof (windowItemHTML_fallback_label idx w (or_intror Ht)) as Hinc.
  split; [by apply renderWindowsHTML_entry|].
  split; [exact Hinc|].
  rewrite (renderWindowsHTML_entry ws idx w Hw).
  by apply includes_app, includes_app, includes_app, includes_app, includes_app_r.
Qed.

(** In a list of two entries whose first has no title, the first label is
    "Window 1", and the rendering of the list has it in the first header. *)
Lemma untitled_window_label_witness :
  windowLabel (Window.mk None (Some (js "https://web.whatsapp.com/")) true None) 0
  = js "Window 1"
  ∧ includes
      (renderWindowsHTML
         (Some [Window.mk None (Some (js "https://web.whatsapp.com/")) true None;
                Window.mk (Some (js "Inbox")) None false None]))
      (js "<div class=" ++ q "acc-header" ++ js ">" ++ js "
        <div class=" ++ q "acc-title" ++ js ">
          <span class=" ++ dq ++ js "dot " ++ js "ok" ++ dq ++ js "></span>
          <span>" ++ js "Window " ++ js "1" ++ js "</span>
        </div>") = true.
Proof.
  pose (w := Window.mk None (Some (js "https://web.whatsapp.com/")) true None).
  pose (w' := Window.mk (Some (js "Inbox")) None false None).
  destruct (untitled_window_label [w; w'] 0 w) as (_ & _ & H & _ & _ & _ & H');
    [reflexivity | reflexivity |].
  split; [exact H | exact H'].
Defined.

(** *** Falsy values of optional fields *)

Lemma or_str_absentIfEmpty (x : option jsstring) (d : jsstring) :
  or_str (absentIfEmpty x) d = or_str x d.
Proof. by destruct x as [[|c s]|]. Qed.

Lemma or_num_absentIfZero (n : option Z) (d : jsstring) :
  or_num (absentIfZero n) d = or_num n d.
Proof. by destruct n as [[|z|z]|]. Qed.

Lemma windowItemHTML_withoutFalsy (idx : nat) (w : Window.t) :
  windowItemHTML idx (Window_withoutFalsy w) = windowItemHTML idx w.
Proof.
  unfold windowItemHTML, windowTitleHTML, windowLabel, windowMetaHTML.
  destruct w as [t u r l]; simpl.
  rewrite !or_str_absentIfEmpty. by destruct u as [[|c u]|].
Qed.

Lemma imap_windowItemHTML_withoutFalsy (f : nat → nat) (ws : list Window.t) :
  imap (λ i, windowItemHTML (f i)) (Window_withoutFalsy <$> ws)
  = imap (λ i, windowItemHTML (f i)) ws.
Proof.
  revert f. induction ws as [|w ws IH]; intros f; [done|].
  rewrite fmap_cons, !imap_cons. f_equal.
  - apply windowItemHTML_withoutFalsy.
  - apply (IH (f ∘ S)).
Qed.

Lemma renderWindowsHTML_withoutFalsy (ws : option (list Window.t)) :
  renderWindowsHTML (fmap (M := list) Window_withoutFalsy <$> ws)
  = renderWindowsHTML ws.
Proof.
  destruct ws as [[|w ws]|]; [done| |done].
  change (fmap (M := list) Window_withoutFalsy <$> Some (w :: ws))
    with (Some (Window_withoutFalsy <$> (w :: ws))).
  rewrite fmap_cons, !renderWindowsHTML_cons, <- fmap_cons.
  by rewrite (imap_windowItemHTML_withoutFalsy id).
Qed.

Lemma or_str_falsy (x : option jsstring) (d : jsstring) :
  falsyStr x → or_str x d = d.
Proof. by intros [-> | ->]. Qed.

Lemma or_num_falsy (n : option Z) (d : jsstring) :
  falsyNum n → or_num n d = d.
Proof. by intros [-> | ->]. Qed.

(** C9: a present but falsy optional field (a [pid] equal to 0, an empty
    [path], [title], [url] or [last_seen]) is rendered exactly as the absent
    field is.  Both renderers give the same text on a value and on the
    value with those fields removed.  And that text has the dash: the
    detail body of a profile has the dash in the cell of a falsy path, pid
    or last-seen time; the rendering of a window has the "Window N" label
    in the header and the dash in the title cell for a falsy title, an
    empty meta block and the dash in the URL cell for a falsy url, and the
    dash in the last-seen cell for a falsy time; and the rendering of a
    list has the rendering of each of its windows at its place. *)
Theorem falsy_fields_render_as_absent :
  (∀ p, buildProfileBodyHTML p = buildProfileBodyHTML (Profile_withoutFalsy p))
  ∧ (∀ ws, renderWindowsHTML ws
           = renderWindowsHTML (fmap (M := list) Window_withoutFalsy <$> ws))
  ∧ (∀ p, falsyStr (Profile.path p) →
       includes (buildProfileBodyHTML p)
         (js "<div>Path</div><div>" ++ js "-" ++ js "</div>") = true)
  ∧ (∀ p, falsyNum (Profile.pid p) →
       includes (buildProfileBodyHTML p)
         (js "<div>PID</div><div>" ++ js "-" ++ js "</div>") = true)
  ∧ (∀ p, falsyStr (Profile.last_seen p) →
       includes (buildProfileBodyHTML p)
         (js "<div>Last Seen</div><div>" ++ js "-" ++ js "</div>
      </div>
      <div style=" ++ q "margin-top:8px;font-weight:600;"
            ++ js ">Windows / Tabs</div>") = true)
  ∧ (∀ idx w, falsyStr (Window.title w) →
       includes (windowItemHTML idx w)
         (js "<div class=" ++ q "acc-header" ++ js ">" ++ js "
        <div class=" ++ q "acc-title" ++ js ">
          <span class=" ++ dq ++ js "dot "
            ++ (if Window.wa_ready w then js "ok" else js "warn") ++ dq ++ js "></span>
          <span>" ++ js "Window " ++ String_of_Z (Z.of_nat idx + 1) ++ js "</span>
        </div>") = true
       ∧ includes (windowItemHTML idx w)
           (js "<div>Title</div><div>" ++ js "-" ++ js "</div>") = true)
  ∧ (∀ idx w, falsyStr (Window.url w) →
       includes (windowItemHTML idx w)
         (js "</span>
        </div>" ++ js "<div class=" ++ q "acc-meta" ++ js "></div>"
            ++ js "</div>") = true
       ∧ includes (windowItemHTML idx w)
           (js "<div>URL</div><div>" ++ js "-" ++ js "</div>") = true)
  ∧ (∀ idx w, falsyStr (Window.last_seen w) →
       includes (windowItemHTML idx w)
         (js "<div>Last Seen</div><div>" ++ js "-" ++ js "</div>") = true)
  ∧ (∀ ws idx w, ws !! idx = Some w →
       renderWindowsHTML (Some ws)
       = js "<div class=" ++ q "accordion nested" ++ js ">"
           ++ concat (imap windowItemHTML (take idx ws))
           ++ windowItemHTML idx w
           ++ concat (imap (λ i, windowItemHTML (S idx + i)) (drop (S idx) ws))
           ++ js "</div>")
  ∧ (∀ p, includes (buildProfileBodyHTML p)
            (js ">Windows / Tabs</div>
      " ++ renderWindowsHTML (Profile.windows p) ++ js "
    ") = true).
Proof.
  split.
  { intros [k r pa pi l ws]. unfold buildProfileBodyHTML; simpl.
    by rewrite !or_str_absentIfEmpty, or_num_absentIfZero,
      renderWindowsHTML_withoutFalsy. }
  split; [intros ws; symmetry; apply renderWindowsHTML_withoutFalsy|].
  split.
  { intros p Hf. unfold buildProfileBodyHTML.
    rewrite (or_str_falsy (Profile.path p) (js "-") Hf).
    generalize (statusBadge (Profile.ready p)) as badge.
    generalize (or_num (Profile.pid p) (js "-")) as pid.
    generalize (or_str (Profile.last_seen p) (js "-")) as seen.
    generalize (renderWindowsHTML (Profile.windows p)) as windows.
    intros windows seen pid badge. find_markup. }
  split.
  { intros p Hf. unfold buildProfileBodyHTML.
    rewrite (or_num_falsy (Profile.pid p) (js "-") Hf).
    generalize (statusBadge (Profile.ready p)) as badge.
    generalize (or_str (Profile.path p) (js "-")) as path.
    generalize (or_str (Profile.last_seen p) (js "-")) as seen.
    generalize (renderWindowsHTML (Profile.windows p)) as windows.
    intros windows seen path badge. find_markup. }
  split.
  { intros p Hf. unfold buildProfileBodyHTML.
    rewrite (or_str_falsy (Profile.last_seen p) (js "-") Hf).
    generalize (statusBadge (Profile.ready p)) as badge.
    generalize (or_str (Profile.path p) (js "-")) as path.
    generalize (or_num (Profile.pid p) (js "-")) as pid.
    generalize (renderWindowsHTML (Profile.windows p)) as windows.
    intros windows pid path badge. find_markup. }
  split.
  { intros idx w Hf. split; [by apply windowItemHTML_fallback_label|].
    unfold windowItemHTML.
    rewrite (or_str_falsy (Window.title w) (js "-") Hf).
    generalize (windowTitleHTML w idx) as header.
    generalize (windowMetaHTML w) as meta.
    generalize (statusBadge (Window.wa_ready w)) as badge.
    generalize (or_str (Window.url w) (js "-")) as url.
    generalize (or_str (Window.last_seen w) (js "-")) as seen.
    intros seen url badge meta header. find_markup. }
  split.
  { intros idx w Hf. split.
    - assert (Hmeta : windowMetaHTML w
                      = js "<div class=" ++ q "acc-meta" ++ js "></div>").
      { unfold windowMetaHTML. by destruct Hf as [-> | ->]. }
      unfold windowItemHTML, windowTitleHTML. rewrite Hmeta.
      generalize (windowLabel w idx) as label.
      generalize (statusBadge (Window.wa_ready w)) as badge.
      generalize (or_str (Window.title w) (js "-")) as title.
      generalize (or_str (Window.url w) (js "-")) as url.
      generalize (or_str (Window.last_seen w) (js "-")) as seen.
      intros seen url title badge label. rewrite <- !app_assoc.
      destruct (Window.wa_ready w); find_markup.
    - unfold windowItemHTML.
      rewrite (or_str_falsy (Window.url w) (js "-") Hf).
      generalize (windowTitleHTML w idx) as header.
      generalize (windowMetaHTML w) as meta.
      generalize (statusBadge (Window.wa_ready w)) as badge.
      generalize (or_str (Window.title w) (js "-")) as title.
      generalize (or_str (Window.last_seen w) (js "-")) as seen.
      intros seen title badge meta header. find_markup. }
  split.
  { intros idx w Hf. unfold windowItemHTML.
    rewrite (or_str_falsy (Window.last_seen w) (js "-") Hf).
    generalize (windowTitleHTML w idx) as header.
    generalize (windowMetaHTML w) as meta.
    generalize (statusBadge (Window.wa_ready w)) as badge.
    generalize (or_str (Window.title w) (js "-")) as title.
    generalize (or_str (Window.url w) (js "-")) as url.
    intros url title badge meta header. find_markup. }
  split; [intros ws idx w Hw; by apply renderWindowsHTML_entry|].
  intros p. unfold buildProfileBodyHTML.
  generalize (statusBadge (Profile.ready p)) as badge.
  generalize (or_str (Profile.path p) (js "-")) as path.
  generalize (or_num (Profile.pid p) (js "-")) as pid.
  generalize (or_str (Profile.last_seen p) (js "-")) as seen.
  generalize (renderWindowsHTML (Profile.windows p)) as windows.
  intros windows seen pid path badge. find_markup.
Qed.

Lemma falsy_fields_render_as_absent_witness :
  includes (buildProfileBodyHTML pB)
    (js "<div>PID</div><div>" ++ js "-" ++ js "</div>") = true
  ∧ includes (windowItemHTML 1 (Window.mk (Some []) (Some []) true None))
      (js "<div>Title</div><div>" ++ js "-" ++ js "</div>") = true.
Proof.
  destruct falsy_fields_render_as_absent
    as (_ & _ & _ & Hpid & _ & Htitle & _).
  split.
  - apply (Hpid pB). by left.
  - apply (Htitle 1%nat (Window.mk (Some []) (Some []) true None)). by left.
Defined.

Example pid_zero_renders_dash :
  buildProfileBodyHTML pB
  = buildProfileBodyHTML (Profile.mk (js "a_b") false None None None (Some [])).
Proof. reflexivity. Qed.

(** ** The poller *)

Lemma ok_false_iff (res : Response) :
  ok res = false ↔ (status res < 200 ∨ 299 < status res)%Z.
Proof. unfold ok. rewrite andb_false_iff, !Z.leb_gt. tauto. Qed.

Lemma tryBlock_not_ok (res : Response) :
  ok res = false →
  tryBlock (Resolved res)
  = Throw {| name := js "Error";
             message := js "HTTP " ++ String_of_Z (status res) |}.
Proof. intros H. simpl. by rewrite H. Qed.

Lemma reasonOf_message (e : JsError) : message e ≠ [] → reasonOf e = message e.
Proof. unfold reasonOf. by destruct (message e). Qed.

(** C1, as stated, fails: a response whose status is not 200 but lies in
    the success range passes the guard of line 154 and is rendered. *)
Lemma status_201_is_rendered :
  status created201 ≠ 200%Z
  ∧ tryBlock (Resolved created201) = Render dAB
  ∧ ∀ live, fetchAndRender (Resolved created201) live = Mounted (renderAll dAB).
Proof. split; [discriminate|]. split; [reflexivity | intros; reflexivity]. Qed.

(** C1, amended: a response whose status is outside the success range
    200-299 makes the [try] block throw [Error("HTTP <status>")]; the
    [catch] clause runs and shows the error hint, and [renderAll] is not
    called. *)
Theorem non_success_status_fails (res : Response) (live : LiveContent) :
  (status res < 200 ∨ 299 < status res)%Z →
  tryBlock (Resolved res)
    = Throw {| name := js "Error";
               message := js "HTTP " ++ String_of_Z (status res) |}
  ∧ (∀ data, tryBlock (Resolved res) ≠ Render data)
  ∧ fetchAndRender (Resolved res) live
    = Markup (js "<div class=" ++ q "hint" ++ js ">Metrikler alınamadı: HTTP "
                ++ String_of_Z (status res) ++ js "</div>").
Proof.
  intros H%ok_false_iff. pose proof (tryBlock_not_ok res H) as Ht.
  split; [exact Ht|]. split; [intros data; rewrite Ht; discriminate|].
  unfold fetchAndRender. rewrite Ht. reflexivity.
Qed.

Lemma non_success_status_fails_witness :
  fetchAndRender (Resolved {| status := 500; json := inr dAB |}) (Markup [])
  = Markup (js "<div class=" ++ q "hint" ++ js ">Metrikler alınamadı: HTTP 500</div>").
Proof.
  destruct (non_success_status_fails {| status := 500; json := inr dAB |} (Markup []))
    as (_ & _ & H); [right; reflexivity|].
  exact H.
Defined.

(** C4: whatever the live region held before, a poll that fails - the
    request is rejected, the status is not a success status, or the body
    is not JSON - leaves in it the markup of one error hint with the reason
    of the error, and no mounted dashboard. *)
Theorem failed_poll_shows_only_error (live : LiveContent) :
  (∀ e, fetchAndRender (Rejected e) live
        = Markup (js "<div class=" ++ q "hint" ++ js ">Metrikler alınamadı: "
                    ++ reasonOf e ++ js "</div>"))
  ∧ (∀ res, ok res = false →
        fetchAndRender (Resolved res) live
        = Markup (js "<div class=" ++ q "hint" ++ js ">Metrikler alınamadı: "
                    ++ (js "HTTP " ++ String_of_Z (status res)) ++ js "</div>"))
  ∧ (∀ res e, ok res = true → json res = inl e →
        fetchAndRender (Resolved res) live
        = Markup (js "<div class=" ++ q "hint" ++ js ">Metrikler alınamadı: "
                    ++ reasonOf e ++ js "</div>"))
  ∧ (∀ e, message e ≠ [] → reasonOf e = message e).
Proof.
  split; [intros e; reflexivity|].
  split.
  { intros res H. unfold fetchAndRender. rewrite (tryBlock_not_ok res H).
    reflexivity. }
  split; [|apply reasonOf_message].
  intros res e Hok Hj. unfold fetchAndRender, tryBlock. rewrite Hok, Hj.
  reflexivity.
Qed.

Lemma failed_poll_shows_only_error_witness :
  fetchAndRender (Resolved {| status := 500; json := inr dAB |})
    (Mounted (renderAll dAB))
  = Markup (js "<div class=" ++ q "hint" ++ js ">Metrikler alınamadı: HTTP 500</div>")
  ∧ fetchAndRender
      (Resolved {| status := 200;
                   json := inl {| name := js "SyntaxError";
                                  message := js "Unexpected end of JSON input" |} |})
      (Mounted (renderAll dAB))
    = Markup (js "<div class=" ++ q "hint"
                ++ js ">Metrikler alınamadı: Unexpected end of JSON input</div>").
Proof.
  destruct (failed_poll_shows_only_error (Mounted (renderAll dAB)))
    as (_ & H2 & H3 & _).
  split.
  - exact (H2 {| status := 500; json := inr dAB |} eq_refl).
  - exact (H3 {| status := 200;
                 json := inl {| name := js "SyntaxError";
                                message := js "Unexpected end of JSON input" |} |}
              {| name := js "SyntaxError";
                 message := js "Unexpected end of JSON input" |}
              eq_refl eq_refl).
Defined.

(** *** The endpoint *)

Lemma foldl_poll_url (m : Poller) (ticks : list Tick) :
  url (foldl poll m ticks) = url m.
Proof.
  revert m. induction ticks as [|t ticks IH]; intros m; [done|].
  simpl. by rewrite IH.
Qed.

Lemma foldl_poll_requested (m : Poller) (ticks : list Tick) :
  requested (foldl poll m ticks)
  = requested m ++ replicate (length ticks) (url m).
Proof.
  revert m. induction ticks as [|t ticks IH]; intros m; simpl.
  - by rewrite app_nil_r.
  - rewrite IH. simpl. by rewrite <- app_assoc.
Qed.

(** C8, as stated, fails: an override that is present with the empty string
    as its value is not used; the poll requests the default path. *)
Lemma empty_override_not_used :
  WPBOT.METRICS_URL <$> Some (WPBOT.mk (Some [])) = Some (Some [])
  ∧ requested (run (Some (WPBOT.mk (Some []))) (Markup []) [offlineTick])
    = [js "/metrics"]
  ∧ requested (run (Some (WPBOT.mk (Some []))) (Markup []) [offlineTick]) ≠ [[]].
Proof. split; [reflexivity|]. split; [reflexivity | discriminate]. Qed.

(** C8, amended: the URL is computed once, from the configuration object
    found at startup, and every poll requests it, whatever the object is
    later; it is the override when that is present and not empty, and
    "/metrics" when the override is absent or empty. *)
Theorem metrics_url_fixed_at_startup
    (window_WPBOT : option WPBOT.t) (live0 : LiveContent) (ticks : list Tick) :
  requested (run window_WPBOT live0 ticks)
    = replicate (length ticks) (METRICS_URL window_WPBOT)
  ∧ (∀ u, window_WPBOT ≫= WPBOT.METRICS_URL = Some u → u ≠ [] →
          METRICS_URL window_WPBOT = u)
  ∧ (window_WPBOT ≫= WPBOT.METRICS_URL = None →
          METRICS_URL window_WPBOT = js "/metrics")
  ∧ (window_WPBOT ≫= WPBOT.METRICS_URL = Some [] →
          METRICS_URL window_WPBOT = js "/metrics").
Proof.
  split; [unfold run; by rewrite foldl_poll_requested|].
  unfold METRICS_URL. destruct window_WPBOT as [[[u0|]]|]; simpl.
  - split; [intros u [= ->] Hu; by destruct u|].
    split; [discriminate | by intros [= ->]].
  - split; [discriminate|]. by split.
  - split; [discriminate|]. by split.
Qed.

Lemma metrics_url_fixed_at_startup_witness :
  requested (run (Some (WPBOT.mk (Some (js "/api/metrics")))) (Markup [])
               [offlineTick; offlineTick])
  = [js "/api/metrics"; js "/api/metrics"]
  ∧ requested (run None (Markup []) [offlineTick; offlineTick])
    = [js "/metrics"; js "/metrics"].
Proof.
  destruct (metrics_url_fixed_at_startup
              (Some (WPBOT.mk (Some (js "/api/metrics")))) (Markup [])
              [offlineTick; offlineTick]) as (H1 & H2 & _).
  destruct (metrics_url_fixed_at_startup None (Markup [])
              [offlineTick; offlineTick]) as (H3 & _ & H4 & _).
  split.
  - rewrite H1, (H2 (js "/api/metrics") eq_refl); [reflexivity | discriminate].
  - rewrite H3, (H4 eq_refl). reflexivity.
Defined.

(** ** The toggle controller *)

Lemma mutate_data_key (c : list ProfileItem) (m : Mutation) :
  data_key <$> mutate c m = data_key <$> c.
Proof.
  destruct m; simpl;
    (rewrite (list_fmap_alter _ _ id); [|by apply Forall_true]);
    by apply list_alter_id.
Qed.

Lemma mutate_body_id (c : list ProfileItem) (m : Mutation) :
  body_id <$> mutate c m = body_id <$> c.
Proof.
  destruct m; simpl;
    (rewrite (list_fmap_alter _ _ id); [|by apply Forall_true]);
    by apply list_alter_id.
Qed.

Lemma foldl_mutate_data_key (ms : list Mutation) (c : list ProfileItem) :
  data_key <$> foldl mutate c ms = data_key <$> c.
Proof.
  revert c. induction ms as [|m ms IH]; intros c; [done|].
  simpl. by rewrite IH, mutate_data_key.
Qed.

Lemma foldl_mutate_body_id (ms : list Mutation) (c : list ProfileItem) :
  body_id <$> foldl mutate c ms = body_id <$> c.
Proof.
  revert c. induction ms as [|m ms IH]; intros c; [done|].
  simpl. by rewrite IH, mutate_body_id.
Qed.

Lemma mutate_other (c : list ProfileItem) (m : Mutation) (i : nat) :
  target m ≠ i → mutate c m !! i = c !! i.
Proof. destruct m; simpl; intros H; by apply list_lookup_alter_ne. Qed.

Lemma foldl_mutate_other (ms : list Mutation) (c : list ProfileItem) (i : nat) :
  Forall (λ m, target m ≠ i) ms → foldl mutate c ms !! i = c !! i.
Proof.
  revert c. induction ms as [|m ms IH]; intros c; [done|].
  inversion 1; subst. simpl. rewrite IH by done. by apply mutate_other.
Qed.

Lemma builds_app (i : nat) (ms ms' : list Mutation) :
  builds i (ms ++ ms') = (builds i ms + builds i ms')%nat.
Proof. unfold builds. by rewrite filter_app, length_app. Qed.

Lemma builds_other (i : nat) (ms : list Mutation) :
  Forall (λ m, target m ≠ i) ms → builds i ms = 0%nat.
Proof.
  unfold builds. induction 1 as [|m ms Hm _ IH]; [done|].
  rewrite filter_cons_False; [exact IH|].
  destruct m as [b html|b]; simpl in *; [|done].
  by rewrite bool_decide_eq_false_2.
Qed.

Lemma clickRows_snd (data : Metrics.t) (clicks : list nat) (c : list ProfileItem) :
  snd (clickRows data c clicks) = foldl (clickRow data) c clicks.
Proof.
  revert c. induction clicks as [|r rest IH]; intros c; [done|]. simpl.
  specialize (IH (foldl mutate c (rowClickMutations data c r))).
  destruct (clickRows data _ rest) as [ms' c']. simpl in *. exact IH.
Qed.

Lemma panelAfter_app (data : Metrics.t) (clicks more : list nat) :
  panelAfter data (clicks ++ more)
  = foldl (clickRow data) (panelAfter data clicks) more.
Proof. unfold panelAfter. by rewrite !clickRows_snd, foldl_app. Qed.

(** C10: a click on a row whose [data-key] selects no body of the panel, or
    names no profile of the snapshot, makes the listener return on line 86
    or 88: it writes nothing and the panel, and with it the dashboard, is
    as before. *)
Theorem unmatched_row_click_is_noop
    (data : Metrics.t) (container : list ProfileItem) (r : nat) (row : ProfileItem) :
  container !! r = Some row →
  querySelectorBody container (data_key row) = None
    ∨ findProfile data (data_key row) = None →
  onRowClick data container (data_key row) = []
  ∧ rowClickMutations data container r = []
  ∧ clickRow data container r = container
  ∧ ∀ d, dash_data d = data → panel_items d = container →
         onProfileRowClick r d = d.
Proof.
  intros Hr Hno.
  assert (H0 : onRowClick data container (data_key row) = []).
  { unfold onRowClick. destruct Hno as [-> | Hp]; [done|].
    destruct (querySelectorBody _ _) as [[b body]|]; [|done]. by rewrite Hp. }
  assert (H1 : rowClickMutations data container r = []).
  { unfold rowClickMutations. by rewrite Hr. }
  assert (H2 : clickRow data container r = container).
  { unfold clickRow. by rewrite H1. }
  repeat split; try done.
  intros [dd wi ph pb pi its bt]; simpl. intros -> ->.
  unfold onProfileRowClick; simpl. by rewrite H2.
Qed.

Lemma unmatched_row_click_is_noop_witness :
  clickRow dAB [strayRow] 0 = [strayRow]
  ∧ clickRow dAB [orphanRow] 0 = [orphanRow].
Proof.
  split.
  - apply (unmatched_row_click_is_noop dAB [strayRow] 0 strayRow eq_refl).
    right. reflexivity.
  - apply (unmatched_row_click_is_noop dAB [orphanRow] 0 orphanRow eq_refl).
    left. reflexivity.
Defined.

(** *** The frame of a panel: keys and ids, which no click changes *)

Lemma framed_init (data : Metrics.t) : framed data (profilesPanelDOM data).
Proof.
  unfold framed, profilesPanelDOM. by rewrite <- !list_fmap_compose.
Qed.

Lemma framed_foldl_mutate (data : Metrics.t) (c : list ProfileItem)
    (ms : list Mutation) :
  framed data c → framed data (foldl mutate c ms).
Proof.
  intros [Hk Hi]. split.
  - by rewrite foldl_mutate_data_key.
  - by rewrite foldl_mutate_body_id.
Qed.

Lemma framed_clickRow (data : Metrics.t) (c : list ProfileItem) (r : nat) :
  framed data c → framed data (clickRow data c r).
Proof. apply framed_foldl_mutate. Qed.

Lemma framed_item_parsed (data : Metrics.t) (c : list ProfileItem) (j : nat)
    (it : ProfileItem) :
  framed data c → c !! j = Some it →
  ∃ q, or_nil (Metrics.profiles data) !! j = Some q
       ∧ data_key it = dataKeyAttribute (Profile.key q)
       ∧ body_id it = profileBodyId q.
Proof.
  intros [Hk Hi] Hj.
  assert (H1 : (data_key <$> c) !! j = Some (data_key it))
    by (by rewrite list_lookup_fmap, Hj).
  assert (H2 : (body_id <$> c) !! j = Some (body_id it))
    by (by rewrite list_lookup_fmap, Hj).
  rewrite Hk, list_lookup_fmap in H1. rewrite Hi, list_lookup_fmap in H2.
  destruct (or_nil (Metrics.profiles data) !! j) as [q|]; [|done].
  exists q. simpl in *. split; [done|]. split; congruence.
Qed.

(** A plain key is read back from the attribute as it was written. *)
Lemma dataKeyAttribute_plain (key : jsstring) :
  plainKey key = true → dataKeyAttribute key = key.
Proof.
  unfold plainKey, dataKeyAttribute.
  induction key as [|c key IH]; [done|].
  cbn [forallb]. intros [Hc Hkey]%andb_true_iff.
  assert (Hunit : (c =? 0) = false ∧ (c =? 13) = false ∧ (c =? 34) = false).
  { unfold plainKeyUnit in Hc.
    by destruct (c =? 0), (c =? 13), (c =? 34). }
  destruct Hunit as (H0 & H13 & H34).
  cbn [normalizeNewlines]. rewrite H13.
  cbn [attributeValue]. rewrite H34, H0. f_equal. by apply IH.
Qed.

Lemma plainSnapshot_key (data : Metrics.t) (j : nat) (q : Profile.t) :
  plainSnapshot data = true →
  or_nil (Metrics.profiles data) !! j = Some q →
  plainKey (Profile.key q) = true.
Proof.
  unfold plainSnapshot. rewrite forallb_forall. intros Hall Hq.
  assert (Hin : In q (or_nil (Metrics.profiles data))).
  { apply list_elem_of_In. by apply list_elem_of_lookup_2 with j. }
  specialize (Hall q Hin). unfold plainProfile in Hall.
  by repeat (apply andb_true_iff in Hall as [Hall ?]).
Qed.

(** In a plain snapshot a row carries the key of its profile. *)
Lemma framed_item (data : Metrics.t) (Hplain : plainSnapshot data = true)
    (c : list ProfileItem) (j : nat) (it : ProfileItem) :
  framed data c → c !! j = Some it →
  ∃ q, or_nil (Metrics.profiles data) !! j = Some q
       ∧ data_key it = Profile.key q ∧ body_id it = profileBodyId q.
Proof.
  intros Hf Hj.
  destruct (framed_item_parsed data c j it Hf Hj) as (q & Hq & Hk & Hb).
  exists q. split; [done|]. split; [|done].
  rewrite Hk. apply dataKeyAttribute_plain. by apply plainSnapshot_key with data j.
Qed.

Lemma framed_profile (data : Metrics.t) (c : list ProfileItem) (j : nat)
    (q : Profile.t) :
  framed data c → or_nil (Metrics.profiles data) !! j = Some q →
  ∃ it, c !! j = Some it
        ∧ data_key it = dataKeyAttribute (Profile.key q)
        ∧ body_id it = profileBodyId q.
Proof.
  intros Hf Hq.
  assert (Hlen : length c = length (or_nil (Metrics.profiles data))).
  { destruct Hf as [Hk _]. apply (f_equal length) in Hk.
    by rewrite !length_fmap in Hk. }
  destruct (c !! j) as [it|] eqn:Hj.
  - exists it. split; [done|].
    destruct (framed_item_parsed data c j it Hf Hj) as (q' & Hq' & ? & ?).
    rewrite Hq in Hq'. by injection Hq' as <-.
  - apply lookup_ge_None in Hj. apply lookup_lt_Some in Hq. lia.
Qed.

Lemma profileBodyId_inj (p q : Profile.t) :
  profileBodyId p = profileBodyId q →
  cssSafe (Profile.key p) = cssSafe (Profile.key q).
Proof. unfold profileBodyId. apply app_inv_head. Qed.

Lemma buildProfileBodyHTML_not_blank (p : Profile.t) :
  trim (buildProfileBodyHTML p) ≠ [].
Proof.
  apply (trim_not_nil _ 60); [|reflexivity].
  unfold buildProfileBodyHTML. do 7 right. left.
Qed.

(** *** A profile whose sanitized key no other profile has *)

Section UniqueId.

Variable data : Metrics.t.
Variable i : nat.
Variable p : Profile.t.
Hypothesis Hplain : plainSnapshot data = true.
Hypothesis Hp : or_nil (Metrics.profiles data) !! i = Some p.
Hypothesis Huniq :
  ∀ j q, or_nil (Metrics.profiles data) !! j = Some q →
         cssSafe (Profile.key q) = cssSafe (Profile.key p) → j = i.

Lemma querySelectorBody_own (c : list ProfileItem) (it : ProfileItem) :
  framed data c → c !! i = Some it →
  querySelectorBody c (Profile.key p) = Some (i, it).
Proof.
  intros Hf Hi. unfold querySelectorBody. apply list_find_Some.
  destruct (framed_item data Hplain c i it Hf Hi) as (q & Hq & Hk & Hb).
  rewrite Hp in Hq. injection Hq as <-.
  split; [done|]. split; [done|].
  intros j y Hj Hlt Hy.
  destruct (framed_item data Hplain c j y Hf Hj) as (q & Hq & _ & Hb').
  rewrite Hb' in Hy. apply profileBodyId_inj in Hy.
  specialize (Huniq j q Hq Hy). lia.
Qed.

Lemma findProfile_own : findProfile data (Profile.key p) = Some p.
Proof.
  unfold findProfile.
  destruct (list_find _ _) as [[j q]|] eqn:Hfind.
  - apply list_find_Some in Hfind as (Hq & Hk & _). simpl.
    assert (j = i) as -> by (apply (Huniq j q Hq); by rewrite Hk).
    congruence.
  - apply list_find_None in Hfind. rewrite Forall_forall in Hfind.
    exfalso. apply (Hfind p); [|done]. by apply list_elem_of_lookup_2 with i.
Qed.

(** A click on the row of [p] writes to the body of [p]: it builds the
    body when it is blank, and toggles it. *)
Lemma rowClickMutations_own (c : list ProfileItem) (it : ProfileItem) :
  framed data c → c !! i = Some it →
  rowClickMutations data c i
  = (if bool_decide (trim (body_innerHTML it) = [])
     then [SetInnerHTML i (buildProfileBodyHTML p)] else [])
      ++ [ToggleHidden i].
Proof.
  intros Hf Hi. unfold rowClickMutations. rewrite Hi.
  destruct (framed_item data Hplain c i it Hf Hi) as (q & Hq & Hk & _).
  rewrite Hp in Hq. injection Hq as <-.
  unfold onRowClick. rewrite Hk.
  by rewrite (querySelectorBody_own c it Hf Hi), findProfile_own.
Qed.

(** A click on another row writes to other bodies only. *)
Lemma rowClickMutations_other (c : list ProfileItem) (r : nat) :
  framed data c → r ≠ i →
  Forall (λ m, target m ≠ i) (rowClickMutations data c r).
Proof.
  intros Hf Hr. unfold rowClickMutations.
  destruct (c !! r) as [row|] eqn:Hrow; [|done].
  unfold onRowClick.
  destruct (querySelectorBody c (data_key row)) as [[b body]|] eqn:Hsel; [|done].
  destruct (findProfile data (data_key row)) as [prof|]; [|done].
  assert (Hb : b ≠ i).
  { intros ->. apply list_find_Some in Hsel as (Hbody & Hid & _).
    destruct (framed_item data Hplain c r row Hf Hrow) as (q & Hq & Hk & _).
    destruct (framed_item data Hplain c i body Hf Hbody) as (q' & Hq' & _ & Hb').
    rewrite Hp in Hq'. injection Hq' as <-.
    rewrite Hb', Hk in Hid. apply app_inv_head in Hid.
    apply Hr, (Huniq r q Hq). by symmetry. }
  destruct (bool_decide _); repeat constructor; done.
Qed.

Lemma clickRows_own_body (clicks : list nat) (c : list ProfileItem)
    (it : ProfileItem) :
  framed data c → c !! i = Some it →
  body_innerHTML it = [] ∨ body_innerHTML it = buildProfileBodyHTML p →
  ∃ it', snd (clickRows data c clicks) !! i = Some it'
    ∧ body_innerHTML it'
      = (if bool_decide (i ∈ clicks) then buildProfileBodyHTML p
         else body_innerHTML it)
    ∧ builds i (fst (clickRows data c clicks))
      = (if bool_decide (i ∈ clicks) && bool_decide (body_innerHTML it = [])
         then 1 else 0)%nat
    ∧ body_hidden it' = xorb (body_hidden it) (Nat.odd (clicksOn i clicks)).
Proof.
  revert c it. induction clicks as [|r rest IH]; intros c it Hf Hi Hin.
  { exists it. simpl. rewrite xorb_false_r. by repeat split. }
  simpl.
  pose proof (framed_foldl_mutate data c (rowClickMutations data c r) Hf) as Hf'.
  destruct (decide (r = i)) as [->|Hr].
  - (* the row of [p] *)
    pose proof (rowClickMutations_own c it Hf Hi) as Hms.
    set (it1 := toggleHidden (setInnerHTML (buildProfileBodyHTML p) it)).
    assert (Hi1 : foldl mutate c (rowClickMutations data c i) !! i = Some it1
                  ∧ builds i (rowClickMutations data c i)
                    = (if bool_decide (body_innerHTML it = []) then 1 else 0)%nat).
    { rewrite Hms. destruct Hin as [Hin|Hin].
      - rewrite Hin. rewrite (bool_decide_eq_true_2 (trim [] = [])) by done.
        rewrite (bool_decide_eq_true_2 (@nil N = [])) by done. simpl.
        rewrite !list_lookup_alter_eq, Hi. split; [done|].
        unfold builds. rewrite filter_cons_True, filter_cons_False; [done|done|].
        simpl. by apply bool_decide_eq_true_2.
      - pose proof (buildProfileBodyHTML_not_blank p) as Hnb.
        rewrite <- Hin in Hnb.
        rewrite (bool_decide_eq_false_2 (trim (body_innerHTML it) = [])) by done.
        simpl. rewrite list_lookup_alter_eq, Hi. split.
        + simpl. f_equal. unfold it1, toggleHidden, setInnerHTML; simpl.
          by rewrite Hin.
        + rewrite (bool_decide_eq_false_2 (body_innerHTML it = [])); [done|].
          intros He. rewrite He in Hnb. by apply Hnb. }
    destruct Hi1 as [Hi1 Hb1].
    destruct (IH _ it1 Hf' Hi1 (or_intror eq_refl)) as (it' & Hit' & Hinner & Hb & Hh).
    destruct (clickRows data _ rest) as [ms' c']. simpl in *.
    exists it'. split; [done|].
    rewrite (bool_decide_eq_true_2 (i ∈ i :: rest)) by (apply list_elem_of_here).
    split; [by destruct (bool_decide (i ∈ rest))|].
    split.
    + rewrite builds_app, Hb, Hb1, andb_false_r. simpl.
      destruct (bool_decide (body_innerHTML it = [])); lia.
    + rewrite Hh. unfold clicksOn. rewrite filter_cons_True by done.
      simpl length. rewrite Nat.odd_succ, <- Nat.negb_odd.
      fold (clicksOn i rest). by destruct (body_hidden it), (Nat.odd _).
  - (* another row *)
    pose proof (rowClickMutations_other c r Hf Hr) as Hms.
    assert (Hi1 : foldl mutate c (rowClickMutations data c r) !! i = Some it)
      by (by rewrite foldl_mutate_other).
    destruct (IH _ it Hf' Hi1 Hin) as (it' & Hit' & Hinner & Hb & Hh).
    destruct (clickRows data _ rest) as [ms' c']. simpl in *.
    exists it'. split; [done|].
    assert (Hdec : bool_decide (i ∈ r :: rest) = bool_decide (i ∈ rest)).
    { apply bool_decide_ext. rewrite elem_of_cons.
      split; [intros [?|?]; [congruence|done] | by right]. }
    rewrite Hdec. split; [done|]. split.
    + by rewrite builds_app, (builds_other i _ Hms), Hb.
    + rewrite Hh. unfold clicksOn. by rewrite filter_cons_False.
Qed.

End UniqueId.

(** C2, as stated, fails in two ways.  When two keys are sanitized to one
    id, a click on the row of the second profile fills and shows the body
    of the first; the body of the clicked profile stays empty and hidden,
    and the body of the first has content though its row was never
    clicked.  And when the key of a profile has a double quote, its row
    carries the key only up to the quote: a click on the row of the only
    profile of [dQ] selects no body, writes nothing, and the body stays
    empty. *)
Lemma colliding_ids_wrong_body_built :
  or_nil (Metrics.profiles dAB) = [pA; pB]
  ∧ Profile.key pA ≠ Profile.key pB
  ∧ body_innerHTML <$> panelAfter dAB [1%nat] !! 1%nat = Some []
  ∧ body_innerHTML <$> panelAfter dAB [1%nat] !! 0%nat
    = Some (buildProfileBodyHTML pB)
  ∧ buildProfileBodyHTML pB ≠ []
  ∧ or_nil (Metrics.profiles dQ) = [pQ]
  ∧ data_key <$> panelAfter dQ [] !! 0%nat = Some (js "a")
  ∧ writesOf dQ [0%nat] = []
  ∧ body_innerHTML <$> panelAfter dQ [0%nat] !! 0%nat = Some [].
Proof.
  split; [reflexivity|]. split; [discriminate|].
  split; [reflexivity|]. split; [reflexivity|]. split; [discriminate|].
  split; [reflexivity|]. split; [reflexivity|]. split; reflexivity.
Qed.

(** C2, amended: in a snapshot whose strings are plain (no key has a
    double quote, an ampersand, a less-than sign, a carriage return or
    U+0000, and no other string has a less-than sign), for a profile [p],
    at position [i] of the snapshot, whose sanitized key no other profile
    of the snapshot has, and for every sequence of row clicks on the panel
    since its build: the body of [p] is
    empty as long as its row has not been clicked; once the row has been
    clicked its content is [buildProfileBodyHTML p], which is not blank;
    that content is assigned once in the whole sequence, and never when the
    row is not clicked; and every click on the row toggles the [hidden]
    class. *)
Theorem unique_id_body_built_once
    (data : Metrics.t) (i : nat) (p : Profile.t) (clicks : list nat) :
  plainSnapshot data = true →
  or_nil (Metrics.profiles data) !! i = Some p →
  (∀ j q, or_nil (Metrics.profiles data) !! j = Some q →
          cssSafe (Profile.key q) = cssSafe (Profile.key p) → j = i) →
  ∃ it, panelAfter data clicks !! i = Some it
    ∧ (i ∉ clicks → body_innerHTML it = [])
    ∧ (i ∈ clicks → body_innerHTML it = buildProfileBodyHTML p
                    ∧ trim (body_innerHTML it) ≠ [])
    ∧ builds i (writesOf data clicks)
      = (if bool_decide (i ∈ clicks) then 1 else 0)%nat
    ∧ body_hidden it = Nat.even (clicksOn i clicks).
Proof.
  intros Hplain Hp Huniq.
  destruct (framed_profile data (profilesPanelDOM data) i p (framed_init data) Hp)
    as (it0 & Hit0 & _ & _).
  assert (H0 : body_innerHTML it0 = [] ∧ body_hidden it0 = true).
  { unfold profilesPanelDOM in Hit0. rewrite list_lookup_fmap in Hit0.
    destruct (or_nil (Metrics.profiles data) !! i); [|done].
    injection Hit0 as <-. done. }
  destruct H0 as [Hinner0 Hhid0].
  destruct (clickRows_own_body data i p Hplain Hp Huniq clicks (profilesPanelDOM data)
              it0 (framed_init data) Hit0 (or_introl Hinner0))
    as (it & Hit & Hinner & Hb & Hh).
  exists it. split; [exact Hit|].
  rewrite Hinner0 in *. rewrite Hhid0 in Hh.
  split; [|split; [|split]].
  - intros Hn. rewrite Hinner. by rewrite (bool_decide_eq_false_2 (i ∈ clicks)).
  - intros Hc. rewrite (bool_decide_eq_true_2 (i ∈ clicks)) in Hinner by done.
    split; [exact Hinner|]. rewrite Hinner. apply buildProfileBodyHTML_not_blank.
  - unfold writesOf. rewrite Hb.
    rewrite (bool_decide_eq_true_2 (@nil N = [])) by done. by rewrite andb_true_r.
  - rewrite Hh. simpl. apply Nat.negb_odd.
Qed.

Lemma unique_id_body_built_once_witness :
  ∃ it, panelAfter dAC [0; 1; 0; 0]%nat !! 0%nat = Some it
    ∧ body_innerHTML it = buildProfileBodyHTML pA
    ∧ builds 0 (writesOf dAC [0; 1; 0; 0]%nat) = 1%nat
    ∧ body_hidden it = false.
Proof.
  destruct (unique_id_body_built_once dAC 0 pA [0; 1; 0; 0]%nat eq_refl eq_refl)
    as (it & Hit & _ & Hin & Hb & Hh).
  - intros j q Hq Hc. destruct j as [|[|j]]; [done| |done].
    injection Hq as <-. discriminate Hc.
  - exists it. split; [exact Hit|].
    split; [apply Hin; apply list_elem_of_here|].
    split; [exact Hb | exact Hh].
Defined.

(** *** Panels reached by clicks: a built body is the first with its id *)

Lemma builtFirst_init (data : Metrics.t) : builtFirst (profilesPanelDOM data).
Proof.
  intros j it Hj Hb. exfalso. apply Hb.
  unfold profilesPanelDOM in Hj. rewrite list_lookup_fmap in Hj.
  destruct (or_nil (Metrics.profiles data) !! j); [|done].
  by injection Hj as <-.
Qed.

Lemma same_ids_lookup (c c' : list ProfileItem) (k : nat) (y' : ProfileItem) :
  body_id <$> c' = body_id <$> c → c' !! k = Some y' →
  ∃ y, c !! k = Some y ∧ body_id y = body_id y'.
Proof.
  intros Hids Hk.
  assert (H : (body_id <$> c) !! k = Some (body_id y'))
    by (by rewrite <- Hids, list_lookup_fmap, Hk).
  rewrite list_lookup_fmap in H.
  destruct (c !! k) as [y|]; [|done]. exists y. split; [done|].
  by injection H.
Qed.

Lemma builtFirst_clickRow (data : Metrics.t) (c : list ProfileItem) (r : nat) :
  builtFirst c → builtFirst (clickRow data c r).
Proof.
  intros Hbf. unfold clickRow, rowClickMutations.
  destruct (c !! r) as [row|]; [|done].
  unfold onRowClick.
  destruct (querySelectorBody c (data_key row)) as [[b body]|] eqn:Hsel; [|done].
  destruct (findProfile data (data_key row)) as [prof|]; [|done].
  apply list_find_Some in Hsel as (Hbody & Hid & Hleast).
  set (ms := _ ++ [ToggleHidden b]).
  assert (Hms : Forall (λ m, target m = b) ms).
  { unfold ms. destruct (bool_decide _); repeat constructor. }
  pose proof (foldl_mutate_body_id ms c) as Hids.
  intros j it' Hj Hbuilt k y' Hk Hlt.
  destruct (same_ids_lookup c _ k y' Hids Hk) as (y & Hy & <-).
  destruct (same_ids_lookup c _ j it' Hids Hj) as (it & Hit & <-).
  destruct (decide (j = b)) as [->|Hjb].
  - rewrite Hbody in Hit. injection Hit as <-. rewrite Hid.
    exact (Hleast k y Hy Hlt).
  - rewrite foldl_mutate_other in Hj.
    + rewrite Hit in Hj. injection Hj as <-. exact (Hbf j it Hit Hbuilt k y Hy Hlt).
    + eapply Forall_impl; [exact Hms|]. simpl. intros m ->. done.
Qed.

Lemma foldl_clickRow_invariant (data : Metrics.t) (clicks : list nat)
    (c : list ProfileItem) :
  framed data c → builtFirst c →
  framed data (foldl (clickRow data) c clicks)
  ∧ builtFirst (foldl (clickRow data) c clicks).
Proof.
  revert c. induction clicks as [|r rest IH]; intros c Hf Hb; [done|].
  simpl. apply IH; [by apply framed_clickRow | by apply builtFirst_clickRow].
Qed.

Lemma panelAfter_invariant (data : Metrics.t) (clicks : list nat) :
  framed data (panelAfter data clicks) ∧ builtFirst (panelAfter data clicks).
Proof.
  unfold panelAfter. rewrite clickRows_snd.
  apply foldl_clickRow_invariant; [apply framed_init | apply builtFirst_init].
Qed.

(** A click on the row of a built body toggles that body and writes
    nothing else. *)
Lemma rowClickMutations_built (data : Metrics.t)
    (Hplain : plainSnapshot data = true) (c : list ProfileItem)
    (i : nat) (it : ProfileItem) :
  framed data c → builtFirst c → c !! i = Some it →
  trim (body_innerHTML it) ≠ [] →
  rowClickMutations data c i = [ToggleHidden i].
Proof.
  intros Hf Hbf Hi Hbuilt. unfold rowClickMutations. rewrite Hi.
  destruct (framed_item data Hplain c i it Hf Hi) as (q & Hq & Hk & Hb).
  assert (Hsel : querySelectorBody c (data_key it) = Some (i, it)).
  { apply list_find_Some. split; [done|]. split; [by rewrite Hk|].
    intros j y Hj Hlt Hy. apply (Hbf i it Hi Hbuilt j y Hj Hlt).
    by rewrite Hy, Hk. }
  assert (Hprof : is_Some (findProfile data (data_key it))).
  { unfold findProfile.
    destruct (list_find_elem_of (λ p, Profile.key p = data_key it)
                (or_nil (Metrics.profiles data)) q) as [[j q'] Hfind]; [|done|].
    - by apply list_elem_of_lookup_2 with i.
    - rewrite Hfind. by eexists. }
  destruct Hprof as [prof Hprof].
  unfold onRowClick. rewrite Hsel, Hprof.
  by rewrite (bool_decide_eq_false_2 (trim (body_innerHTML it) = [])).
Qed.

Lemma repeated_clicks_toggle (data : Metrics.t)
    (Hplain : plainSnapshot data = true) (i n : nat)
    (c : list ProfileItem) (it : ProfileItem) :
  framed data c → builtFirst c → c !! i = Some it →
  trim (body_innerHTML it) ≠ [] →
  ∃ it', foldl (clickRow data) c (replicate n i) !! i = Some it'
    ∧ body_innerHTML it' = body_innerHTML it
    ∧ body_hidden it' = xorb (body_hidden it) (Nat.odd n).
Proof.
  revert c it. induction n as [|n IH]; intros c it Hf Hbf Hi Hbuilt.
  { exists it. simpl. by rewrite xorb_false_r. }
  simpl replicate. simpl foldl.
  assert (Hc1 : clickRow data c i !! i = Some (toggleHidden it)).
  { unfold clickRow. rewrite (rowClickMutations_built data Hplain c i it) by done.
    simpl. by rewrite list_lookup_alter_eq, Hi. }
  destruct (IH (clickRow data c i) (toggleHidden it)) as (it' & Hit' & Hin & Hh);
    [by apply framed_clickRow | by apply builtFirst_clickRow | done | done |].
  exists it'. split; [done|]. split; [done|].
  rewrite Hh, Nat.odd_succ, <- Nat.negb_odd. simpl.
  by destruct (body_hidden it), (Nat.odd n).
Qed.

(** C5, as stated, fails: right after the click that builds it the body is
    visible, and an even number of further clicks (none, or two) leaves it
    visible, not hidden. *)
Lemma built_body_even_clicks_visible :
  body_innerHTML <$> panelAfter dAC [0%nat] !! 0%nat
    = Some (buildProfileBodyHTML pA)
  ∧ trim (buildProfileBodyHTML pA) ≠ []
  ∧ body_hidden <$> panelAfter dAC ([0%nat] ++ replicate 0 0%nat) !! 0%nat
    = Some false
  ∧ body_hidden <$> panelAfter dAC ([0%nat] ++ replicate 2 0%nat) !! 0%nat
    = Some false
  ∧ Nat.even 0 = true ∧ Nat.even 2 = true.
Proof.
  split; [reflexivity|]. split; [apply buildProfileBodyHTML_not_blank|].
  split; [reflexivity|]. split; [reflexivity|]. split; reflexivity.
Qed.

(** C5, amended: in a snapshot whose strings are plain, and in a panel
    reached by any clicks, take a row whose body has been built.  [n]
    further clicks on the row leave the content of the body as it is and
    flip its visibility [n] times.  So from the hidden state (a built body
    that was collapsed again) the body is hidden when [n] is even and
    visible when [n] is odd; from the visible state, which is the state
    right after the build, it is visible when [n] is even and hidden when
    [n] is odd. *)
Theorem built_body_toggle_parity
    (data : Metrics.t) (clicks : list nat) (i n : nat) (it : ProfileItem) :
  plainSnapshot data = true →
  panelAfter data clicks !! i = Some it →
  trim (body_innerHTML it) ≠ [] →
  ∃ it', panelAfter data (clicks ++ replicate n i) !! i = Some it'
    ∧ body_innerHTML it' = body_innerHTML it
    ∧ body_hidden it' = xorb (body_hidden it) (Nat.odd n)
    ∧ (body_hidden it = true → body_hidden it' = Nat.even n)
    ∧ (body_hidden it = false → body_hidden it' = Nat.odd n).
Proof.
  intros Hplain Hi Hbuilt. rewrite panelAfter_app.
  destruct (panelAfter_invariant data clicks) as [Hf Hbf].
  destruct (repeated_clicks_toggle data Hplain i n _ it Hf Hbf Hi Hbuilt)
    as (it' & Hit' & Hin & Hh).
  exists it'. split; [done|]. split; [done|]. split; [done|].
  split; intros Hhid; rewrite Hh, Hhid; simpl; [apply Nat.negb_odd | done].
Qed.

Lemma built_body_toggle_parity_witness :
  ∃ it', panelAfter dAC ([0; 0] ++ replicate 3 0)%nat !! 0%nat = Some it'
    ∧ body_innerHTML it' = buildProfileBodyHTML pA
    ∧ body_hidden it' = false.
Proof.
  pose (it := toggleHidden (toggleHidden
                (setInnerHTML (buildProfileBodyHTML pA) (profileItemDOM pA)))).
  destruct (built_body_toggle_parity dAC [0; 0]%nat 0 3 it eq_refl eq_refl)
    as (it' & Hit' & Hin & _ & Hh & _).
  - apply buildProfileBodyHTML_not_blank.
  - exists it'. split; [exact Hit'|]. split; [exact Hin|]. exact (Hh eq_refl).
Defined.

(** *** The panel inside the mounted dashboard *)

Lemma handle_built (evs : list UserEvent) (d : Dashboard) :
  panelBuilt d = true →
  panel_items (foldl handle d evs)
  = foldl (clickRow (dash_data d)) (panel_items d) (rowClicks evs).
Proof.
  revert d. induction evs as [|ev evs IH]; intros d Hb; [done|].
  destruct ev as [|r]; simpl.
  - rewrite IH; simpl; rewrite Hb, andb_false_r; done.
  - rewrite IH; done.
Qed.

(** X16: the panel is built by the first click on the button and never
    again: after any clicks on a mounted dashboard the panel has no item if
    the button was not clicked, and otherwise its items are those of the
    fresh panel after the row clicks that followed the first click on the
    button; hiding and showing the panel does not reset the bodies. *)
Lemma dashboard_panel_lifetime (data : Metrics.t) (evs : list UserEvent) :
  panel_items (foldl handle (renderAll data) evs)
  = match rowClicksSinceBuild evs with
    | None => []
    | Some clicks => panelAfter data clicks
    end.
Proof.
  induction evs as [|ev evs IH]; [done|].
  destruct ev as [|r].
  - simpl foldl. rewrite handle_built by done. simpl.
    unfold panelAfter. by rewrite clickRows_snd.
  - exact IH.
Qed.

Example end_to_end_summary :
  let data := Metrics.mk true 2 3 5 1 0
                (Some [Profile.mk (js "A") true None None None (Some [])]) in
  includes (renderSummaryMonoBox data) (js "2/3 ready") = true
  ∧ includes (renderSummaryMonoBox data) (js "✅ true") = true
  ∧ (body_innerHTML <$> panelAfter data [0%nat] !! 0%nat)
    = Some (buildProfileBodyHTML (Profile.mk (js "A") true None None None (Some [])))
  ∧ includes (buildProfileBodyHTML (Profile.mk (js "A") true None None None (Some [])))
      noWindowsHint = true.
Proof. repeat split; reflexivity. Qed.

(** * Further properties *)

(** ** [cssSafe] and the ids *)

Lemma cssSafe_unit_eq (a b : N) :
  (if in_class a then a else 95) = (if in_class b then b else 95) ↔ collide a b.
Proof.
  unfold collide, masked.
  destruct (in_class a) eqn:Ha, (in_class b) eqn:Hb; split.
  - intros ->. by left.
  - intros [->|[[?| ->] [?| ->]]]; congruence.
  - intros ->. right. split; [by right | by left].
  - intros [->|[[?| ->] _]]; congruence.
  - intros <-. right. split; [by left | by right].
  - intros [->|[_ [?| ->]]]; congruence.
  - intros _. right. split; by left.
  - done.
Qed.

(** X1: two keys are sanitized to the same id fragment exactly when they
    have the same length and, position by position, the same code unit or
    two code units that are both outside [A-Za-z0-9-] (the underscore
    counts as outside). *)
Theorem cssSafe_collision (s t : jsstring) :
  cssSafe s = cssSafe t ↔ Forall2 collide s t.
Proof.
  revert t. induction s as [|a s IH]; intros [|b t]; simpl.
  - split; [constructor | done].
  - split; [done | inversion 1].
  - split; [done | inversion 1].
  - split.
    + intros [= Hab Hst]. constructor; [by apply cssSafe_unit_eq | by apply IH].
    + inversion 1; subst. f_equal; [by apply cssSafe_unit_eq | by apply IH].
Qed.

(** X2: for every key, the id given to the detail body, which is also the
    text after [#] in the selector of line 85, has only characters of
    [A-Za-z0-9_-] and starts with the letter b; its sanitized part is as
    long as the key. *)
Theorem body_id_is_identifier (key : jsstring) :
  Forall (λ c, in_class c = true) (js "body-" ++ cssSafe key)
  ∧ head (js "body-" ++ cssSafe key) = Some 98
  ∧ length (cssSafe key) = length key.
Proof.
  split; [|split].
  - apply Forall_app. split; [|apply cssSafe_in_class].
    repeat constructor.
  - reflexivity.
  - unfold cssSafe. apply length_map.
Qed.

(** ** The poller *)

(** X3: the [try] block ends with the call of [renderAll] on [data]
    exactly when the request is answered, the status is one of 200-299 and
    the body is the JSON text of [data]. *)
Theorem render_iff_success (r : FetchResult) (data : Metrics.t) :
  tryBlock r = Render data
  ↔ ∃ res, r = Resolved res ∧ (200 ≤ status res ≤ 299)%Z ∧ json res = inr data.
Proof.
  split.
  - destruct r as [e|res]; simpl; [done|].
    destruct (ok res) eqn:Hok; simpl; [|done].
    destruct (json res) as [e|d] eqn:Hj; [done|].
    intros [= ->]. exists res. split; [done|]. split; [|done].
    unfold ok in Hok. apply andb_true_iff in Hok as [H1 H2].
    apply Z.leb_le in H1, H2. done.
  - intros (res & -> & [H1 H2] & Hj). simpl.
    assert (Hok : ok res = true).
    { unfold ok. apply andb_true_iff. split; by apply Z.leb_le. }
    by rewrite Hok, Hj.
Qed.

(** ** The renderer *)

(** X4: the window list of a profile is rendered as the hint "no window
    data" exactly when the list is absent or empty; any entry gives an
    accordion instead. *)
Theorem windows_hint_iff_none (windows : option (list Window.t)) :
  renderWindowsHTML windows = noWindowsHint ↔ or_nil windows = [].
Proof.
  destruct windows as [[|w ws]|]; simpl; [done| |done].
  split; [|done]. intros H. exfalso.
  apply (f_equal (λ s : jsstring, s !! 12%nat)) in H.
  vm_compute in H. discriminate.
Qed.

(** ** The toggle button *)

Lemma foldl_handle_snoc (d : Dashboard) (evs : list UserEvent) (ev : UserEvent) :
  foldl handle d (evs ++ [ev]) = handle (foldl handle d evs) ev.
Proof. by rewrite foldl_app. Qed.

Lemma toggleClicks_snoc (evs : list UserEvent) (ev : UserEvent) :
  toggleClicks (evs ++ [ev])
  = (toggleClicks evs + match ev with ClickToggle => 1 | ClickRow _ => 0 end)%nat.
Proof.
  induction evs as [|e evs IH]; simpl.
  - destruct ev; done.
  - destruct e; rewrite IH; done.
Qed.

(** X5: whatever is clicked on a mounted dashboard, its snapshot and its
    card stay those of [renderAll]; the panel is hidden exactly after an
    even number of clicks on the button; the panel markup is assigned by
    the first of these clicks and is [buildProfilesPanelHTML data] from then
    on; and the label of the button says "Göster" exactly when the panel is
    hidden. *)
Theorem toggle_button_invariant (data : Metrics.t) (evs : list UserEvent) :
  let d := foldl handle (renderAll data) evs in
  dash_data d = data
  ∧ wrapper_innerHTML d = renderSummaryMonoBox data
  ∧ panel_hidden d = Nat.even (toggleClicks evs)
  ∧ panelBuilt d = negb (toggleClicks evs =? 0)%nat
  ∧ panel_innerHTML d
    = (if (toggleClicks evs =? 0)%nat then [] else buildProfilesPanelHTML data)
  ∧ btn_textContent d
    = (if Nat.even (toggleClicks evs)
       then js "Profilleri Göster ▾" else js "Profilleri Gizle ▴").
Proof.
  cbv zeta. induction evs as [|ev evs IH] using rev_ind; [by repeat split|].
  rewrite foldl_handle_snoc, toggleClicks_snoc.
  destruct IH as (Hd & Hw & Hh & Hb & Hp & Ht).
  destruct ev as [|r];
    cbn [handle onToggleClick onProfileRowClick dash_data wrapper_innerHTML
         panel_hidden panelBuilt panel_innerHTML panel_items btn_textContent].
  - rewrite Hd, Hw, Hh, Hb, Hp, Nat.add_1_r, Nat.even_succ, <- Nat.negb_even.
    clear. generalize (toggleClicks evs). intros [|n].
    + repeat split; reflexivity.
    + change (S n =? 0)%nat with false. change (S (S n) =? 0)%nat with false.
      destruct (Nat.even (S n)); repeat split; reflexivity.
  - rewrite Nat.add_0_r. by repeat split.
Qed.

(** ** The event loop *)

Lemma foldl_click_live (evs : list UserEvent) (m : Loop) :
  loop_live (foldl loopStep m (Click <$> evs))
  = foldl clickOn (loop_live m) evs.
Proof.
  revert m. induction evs as [|ev evs IH]; intros m; [done|].
  simpl. by rewrite IH.
Qed.

Lemma foldl_clickOn_mounted (evs : list UserEvent) (wrapper : Dashboard) :
  foldl clickOn (Mounted wrapper) evs = Mounted (foldl handle wrapper evs).
Proof.
  revert wrapper. induction evs as [|ev evs IH]; intros wrapper; [done|].
  simpl. by rewrite IH.
Qed.

Lemma foldl_clickOn_markup (evs : list UserEvent) (html : jsstring) :
  foldl clickOn (Markup html) evs = Markup html.
Proof. induction evs as [|ev evs IH]; [done|]. simpl. exact IH. Qed.

(** Two polls overlap and the response of the first arrives last: the
    live region ends with the older snapshot. *)
Example stale_response_overwrites :
  loop_live
    (foldl loopStep (loopStart None (Markup []))
       [Fire; Fire;
        Settle 1 (Resolved {| status := 200; json := inr dAC |});
        Settle 0 (Resolved {| status := 200; json := inr dAB |})])
  = Mounted (renderAll dAB).
Proof. reflexivity. Qed.

(** X6: polls overlap, and the last response to arrive wins, whichever
    call it answers: when a call that still waits gets its response, the
    live region becomes the outcome of that response, whatever it held and
    whatever else is waiting; with the clicks [evs] after it the region is
    the dashboard of the rendered snapshot with those clicks handled, or
    the error hint, which no click changes. *)
Theorem last_response_wins
    (window_WPBOT : option WPBOT.t) (live0 : LiveContent)
    (history : list LoopEvent) (i : nat) (r : FetchResult)
    (evs : list UserEvent) :
  i ∈ loop_waiting (foldl loopStep (loopStart window_WPBOT live0) history) →
  loop_live (foldl loopStep (loopStart window_WPBOT live0)
               (history ++ Settle i r :: (Click <$> evs)))
  = match tryBlock r with
    | Render data => Mounted (foldl handle (renderAll data) evs)
    | Throw e => Markup (errorHint e)
    end.
Proof.
  intros Hi. rewrite foldl_app. simpl foldl. rewrite foldl_click_live.
  cbn [loopStep].
  rewrite (bool_decide_eq_true_2 (i ∈ loop_waiting _)) by done.
  cbn [loop_live]. unfold fetchAndRender.
  destruct (tryBlock r) as [e|data].
  - apply foldl_clickOn_markup.
  - apply foldl_clickOn_mounted.
Qed.

Lemma last_response_wins_witness :
  loop_live
    (foldl loopStep (loopStart None (Markup []))
       ([Fire; Fire; Settle 1 (Resolved {| status := 200; json := inr dAC |})]
          ++ Settle 0 (Resolved {| status := 500; json := inr dAB |})
          :: (Click <$> [ClickToggle])))
  = Markup (errorHint {| name := js "Error"; message := js "HTTP 500" |}).
Proof.
  exact (last_response_wins None (Markup [])
           [Fire; Fire; Settle 1 (Resolved {| status := 200; json := inr dAC |})]
           0 (Resolved {| status := 500; json := inr dAB |}) [ClickToggle]
           (list_elem_of_here 0%nat [])).
Defined.

Lemma loopStep_url (m : Loop) (e : LoopEvent) : loop_url (loopStep m e) = loop_url m.
Proof. destruct e as [|i r|ev]; simpl; [done| |done]. by destruct (bool_decide _). Qed.

Lemma foldl_loopStep_requested (history : list LoopEvent) (m : Loop) :
  loop_url (foldl loopStep m history) = loop_url m
  ∧ loop_requested (foldl loopStep m history)
    = loop_requested m ++ replicate (fires history) (loop_url m).
Proof.
  revert m. induction history as [|e history IH]; intros m.
  { simpl. by rewrite app_nil_r. }
  simpl foldl. destruct (IH (loopStep m e)) as [Hu Hr].
  rewrite Hu, Hr, loopStep_url. split; [done|].
  destruct e as [|i r|ev]; simpl.
  - by rewrite <- app_assoc.
  - by destruct (bool_decide _).
  - done.
Qed.

(** X17: with overlapping polls too, every call of [fetchAndRender] sends
    one request, to the URL computed at startup, whatever responses have
    arrived or failed and whatever is still awaited: nothing stops the
    polling, and no response changes where it goes. *)
Theorem loop_requests_startup_url
    (window_WPBOT : option WPBOT.t) (live0 : LiveContent)
    (history : list LoopEvent) :
  loop_requested (foldl loopStep (loopStart window_WPBOT live0) history)
  = replicate (fires history) (METRICS_URL window_WPBOT).
Proof.
  by destruct (foldl_loopStep_requested history (loopStart window_WPBOT live0))
    as [_ ->].
Qed.

(** ** The profile rows *)

Lemma foldl_clickRow_frame (data : Metrics.t) (clicks : list nat)
    (c : list ProfileItem) :
  data_key <$> foldl (clickRow data) c clicks = data_key <$> c
  ∧ body_id <$> foldl (clickRow data) c clicks = body_id <$> c.
Proof.
  revert c. induction clicks as [|r rest IH]; intros c; [done|].
  simpl. destruct (IH (clickRow data c r)) as [-> ->].
  unfold clickRow. by rewrite foldl_mutate_data_key, foldl_mutate_body_id.
Qed.

(** X7: row clicks never add, remove or reorder the items of a panel and
    never change a [data-key] or an [id], whatever the panel is.  For the
    panel of a snapshot whose strings are plain this means: after any
    clicks it has one item per profile, with the key of the profile and the
    id made from it. *)
Theorem clicks_keep_rows_and_ids (data : Metrics.t) (clicks : list nat) :
  (∀ c : list ProfileItem,
     length (foldl (clickRow data) c clicks) = length c
     ∧ data_key <$> foldl (clickRow data) c clicks = data_key <$> c
     ∧ body_id <$> foldl (clickRow data) c clicks = body_id <$> c)
  ∧ (plainSnapshot data = true →
     length (panelAfter data clicks) = length (or_nil (Metrics.profiles data))
     ∧ data_key <$> panelAfter data clicks
       = Profile.key <$> or_nil (Metrics.profiles data)
     ∧ body_id <$> panelAfter data clicks
       = (λ p, js "body-" ++ cssSafe (Profile.key p))
           <$> or_nil (Metrics.profiles data)).
Proof.
  split.
  - intros c. destruct (foldl_clickRow_frame data clicks c) as [Hk Hi].
    split; [|by split].
    apply (f_equal length) in Hk. by rewrite !length_fmap in Hk.
  - intros Hplain. destruct (panelAfter_invariant data clicks) as [[Hk Hi] _].
    assert (Hkeys : data_key <$> panelAfter data clicks
                    = Profile.key <$> or_nil (Metrics.profiles data)).
    { rewrite Hk. apply list_eq. intros j. rewrite !list_lookup_fmap.
      destruct (or_nil (Metrics.profiles data) !! j) as [q|] eqn:Hq; [|done].
      simpl. f_equal. apply dataKeyAttribute_plain.
      by apply plainSnapshot_key with data j. }
    split; [|split; [exact Hkeys | exact Hi]].
    apply (f_equal length) in Hkeys. by rewrite !length_fmap in Hkeys.
Qed.

Lemma clicks_keep_rows_and_ids_witness :
  data_key <$> panelAfter dAC [0; 1; 0]%nat = [js "a b"; js "wa-02"]
  ∧ body_id <$> panelAfter dAC [0; 1; 0]%nat = [js "body-a_b"; js "body-wa-02"].
Proof.
  destruct (clicks_keep_rows_and_ids dAC [0; 1; 0]%nat) as [_ H].
  destruct (H eq_refl) as (_ & Hk & Hi). split; [exact Hk | exact Hi].
Defined.









(** A key with a carriage return is read back with a line feed: the click
    on its row finds the body and no profile, and returns on line 88. *)
Example carriage_return_key_returns_early :
  data_key <$> panelAfter dR [] !! 0%nat = Some [97; 10; 98]
  ∧ is_Some (querySelectorBody (panelAfter dR []) [97; 10; 98])
  ∧ findProfile dR [97; 10; 98] = None
  ∧ writesOf dR [0%nat] = []
  ∧ writesOf dR [1; 1; 0]%nat
    = [SetInnerHTML 0 (buildProfileBodyHTML pB); ToggleHidden 0; ToggleHidden 0].
Proof.
  split; [reflexivity|]. split; [by eexists|].
  split; [reflexivity|]. split; reflexivity.
Qed.



(** *** Clicks on rows with different ids *)











(** *** Repeated clicks on one row *)






(** X12: the listener takes a body for unbuilt exactly when its content is
    made of white space only (the empty content included): then it assigns
    the detail markup of the profile before it toggles the body; on any
    other content it only toggles. *)
Theorem build_exactly_when_blank
    (data : Metrics.t) (c : list ProfileItem) (key : jsstring)
    (b : nat) (body : ProfileItem) (prof : Profile.t) :
  querySelectorBody c key = Some (b, body) →
  findProfile data key = Some prof →
  (Forall (λ ch, is_js_space ch = true) (body_innerHTML body) →
     onRowClick data c key
     = [SetInnerHTML b (buildProfileBodyHTML prof); ToggleHidden b])
  ∧ (¬ Forall (λ ch, is_js_space ch = true) (body_innerHTML body) →
     onRowClick data c key = [ToggleHidden b]).
Proof.
  intros Hsel Hprof. unfold onRowClick. rewrite Hsel, Hprof. split; intros H.
  - apply trim_nil in H.
    by rewrite (bool_decide_eq_true_2 (trim (body_innerHTML body) = [])).
  - rewrite (bool_decide_eq_false_2 (trim (body_innerHTML body) = [])); [done|].
    intros Ht. by apply H, trim_nil.
Qed.

Lemma build_exactly_when_blank_witness :
  onRowClick dAB [blankRow] (js "a_b")
  = [SetInnerHTML 0 (buildProfileBodyHTML pB); ToggleHidden 0].
Proof.
  destruct (build_exactly_when_blank dAB [blankRow] (js "a_b") 0 blankRow pB
              eq_refl eq_refl) as [H _].
  apply H. repeat constructor.
Defined.

(** ** Markup *)

(** X13: whatever the numbers of the snapshot are, the card shows
    "<prof_ready>/<prof_total> ready" in its header, each of the three
    counters in its own cell, the toggle button with the label "Göster",
    and an empty, hidden profiles panel. *)
Theorem summary_shows_counters (data : Metrics.t) :
  includes (renderSummaryMonoBox data)
    (js "<div class=" ++ q "mono-right" ++ js ">"
       ++ String_of_Z (Metrics.prof_ready data) ++ js "/"
       ++ String_of_Z (Metrics.prof_total data) ++ js " ready" ++ js "</div>") = true
  ∧ includes (renderSummaryMonoBox data)
      (js "<div>Queued Jobs</div><div>"
         ++ String_of_Z (Metrics.queued_jobs data) ++ js "</div>") = true
  ∧ includes (renderSummaryMonoBox data)
      (js "<div>Running Jobs</div><div>"
         ++ String_of_Z (Metrics.running_jobs data) ++ js "</div>") = true
  ∧ includes (renderSummaryMonoBox data)
      (js "<div>Pending Targets</div><div>"
         ++ String_of_Z (Metrics.pending_targets data) ++ js "</div>") = true
  ∧ includes (renderSummaryMonoBox data)
      (js "<button id=" ++ q "profilesToggle" ++ js " class=" ++ q "btn"
         ++ js ">Profilleri Göster ▾</button>") = true
  ∧ includes (renderSummaryMonoBox data)
      (js "<div id=" ++ q "profiles-panel" ++ js " class="
         ++ q "profiles-panel hidden" ++ js "></div>") = true.
Proof.
  unfold renderSummaryMonoBox. cbv zeta.
  generalize (String_of_Z (Metrics.prof_ready data)) as ready.
  generalize (String_of_Z (Metrics.prof_total data)) as total.
  generalize (String_of_Z (Metrics.queued_jobs data)) as queued.
  generalize (String_of_Z (Metrics.running_jobs data)) as running.
  generalize (String_of_Z (Metrics.pending_targets data)) as pending.
  intros pending running queued total ready.
  rewrite <- !app_assoc.
  split_and!; find_markup.
Qed.

Lemma buildProfilesPanelHTML_split (data : Metrics.t) (l1 l2 : list Profile.t)
    (p : Profile.t) :
  or_nil (Metrics.profiles data) = l1 ++ p :: l2 →
  buildProfilesPanelHTML data
  = concat (map profileItemHTML l1) ++ profileItemHTML p
      ++ concat (map profileItemHTML l2).
Proof.
  intros H. unfold buildProfilesPanelHTML. rewrite H.
  transitivity (concat (map profileItemHTML (l1 ++ p :: l2))).
  { by destruct l1. }
  by rewrite map_app, concat_app.
Qed.

(** X14: for every profile of the snapshot, the markup of the panel has a
    summary row in whose [data-key] the key is written as it is, without
    escaping, and an empty body with the classes [details-body hidden]
    whose [id] is "body-" and the sanitized key. *)
Theorem panel_markup_has_row_and_body (data : Metrics.t) (p : Profile.t) :
  p ∈ or_nil (Metrics.profiles data) →
  includes (buildProfilesPanelHTML data)
    (js "<div class=" ++ q "profile-summary" ++ js " data-key="
       ++ dq ++ Profile.key p ++ dq ++ js ">") = true
  ∧ includes (buildProfilesPanelHTML data)
      (js "<div class=" ++ q "details-body hidden" ++ js " id="
         ++ dq ++ js "body-" ++ cssSafe (Profile.key p) ++ dq ++ js "></div>") = true.
Proof.
  intros Hin. split_and!.
  all: apply list_elem_of_split in Hin as (l1 & l2 & Hsplit);
    rewrite (buildProfilesPanelHTML_split data l1 l2 p Hsplit);
    apply includes_app; unfold profileItemHTML; rewrite <- !app_assoc;
    generalize (Profile.key p) as key; intros key;
    generalize (cssSafe key) as safe; intros safe;
    destruct (Profile.ready p); find_markup.
Qed.

Lemma panel_markup_has_row_and_body_witness :
  includes (buildProfilesPanelHTML dAB)
    (js "<div class=" ++ q "details-body hidden" ++ js " id="
       ++ dq ++ js "body-a_b" ++ dq ++ js "></div>") = true.
Proof.
  destruct (panel_markup_has_row_and_body dAB pA) as (_ & H).
  - apply list_elem_of_here.
  - exact H.
Defined.

(** X15: the detail body of a profile shows its readiness badge, its path,
    pid and last-seen time, each of the three as the value or the dash, and
    after them the rendering of its window list. *)
Theorem profile_body_shows_fields (p : Profile.t) :
  includes (buildProfileBodyHTML p)
    (js "<div>Ready</div><div>" ++ statusBadge (Profile.ready p) ++ js "</div>") = true
  ∧ includes (buildProfileBodyHTML p)
      (js "<div>Path</div><div>" ++ or_str (Profile.path p) (js "-")
         ++ js "</div>") = true
  ∧ includes (buildProfileBodyHTML p)
      (js "<div>PID</div><div>" ++ or_num (Profile.pid p) (js "-")
         ++ js "</div>") = true
  ∧ includes (buildProfileBodyHTML p)
      (js "<div>Last Seen</div><div>" ++ or_str (Profile.last_seen p) (js "-")
         ++ js "</div>") = true
  ∧ includes (buildProfileBodyHTML p)
      (js ">Windows / Tabs</div>
      " ++ renderWindowsHTML (Profile.windows p) ++ js "
    ") = true.
Proof.
  unfold buildProfileBodyHTML.
  generalize (statusBadge (Profile.ready p)) as badge.
  generalize (or_str (Profile.path p) (js "-")) as path.
  generalize (or_num (Profile.pid p) (js "-")) as pid.
  generalize (or_str (Profile.last_seen p) (js "-")) as seen.
  generalize (renderWindowsHTML (Profile.windows p)) as windows.
  intros windows seen pid path badge.
  split_and!; find_markup.
Qed.

(** *** Instances *)

Lemma cssSafe_collision_witness : cssSafe (js "a b") = cssSafe (js "a_b").
Proof.
  apply (proj2 (cssSafe_collision (js "a b") (js "a_b"))).
  constructor; [by left|].
  constructor; [right; split; [by left | by right]|].
  constructor; [by left | constructor].
Defined.

Lemma render_iff_success_witness :
  tryBlock (Resolved created201) = Render dAB.
Proof.
  apply (proj2 (render_iff_success (Resolved created201) dAB)).
  exists created201. split; [reflexivity|]. split; [|reflexivity].
  simpl. lia.
Defined.

Lemma windows_hint_iff_none_witness :
  renderWindowsHTML None = noWindowsHint
  ∧ or_nil (Some [Window.mk None None true None]) ≠ [].
Proof.
  split.
  - apply (proj2 (windows_hint_iff_none None)). reflexivity.
  - intros H. discriminate H.
Defined.
